(** * Perl Navigator server: diagnostics orchestration

    A shallow embedding of [server/src/server.ts]: the settings cache
    ([documentSettings]), the store of recent critic diagnostics
    ([documentDiags]), the notification handlers and the asynchronous
    function [validatePerlDocument].

    JavaScript here is single threaded: a handler or the stretch of an
    [async] function between two [await]s runs to its end before anything
    else does.  An [async] function is therefore a machine whose states are
    its [await] points ([Run]) and whose transitions ([resume]) are those
    stretches; whatever crosses the connection is appended to a log of
    [Effect]s carried by the server state. *)

From Stdlib Require Import ZArith.
From stdpp Require Import gmap strings list fin_maps.


(** ** Protocol data (vscode-languageserver) *)

Record Position := { line : nat; character : nat }.

Record Range := { range_start : Position; range_end : Position }.

Inductive DiagnosticSeverity := SevError | SevWarning | SevInformation | SevHint.

Record Diagnostic := {
  range : Range;
  severity : option DiagnosticSeverity;
  source : option string;
  message : string
}.

Record TextDocument := {
  uri : string;
  languageId : string;
  version : Z;
  getText : string
}.

Record WorkspaceFolder := { folder_uri : string; folder_name : string }.

(** ** Settings ([NavigatorSettings] of ./types, as [defaultSettings] fills it) *)

Record NavigatorSettings := {
  perlPath : string;
  enableAllWarnings : bool;
  perlcriticPath : string;
  perlcriticProfile : string;
  severity5 : string;
  severity4 : string;
  severity3 : string;
  severity2 : string;
  severity1 : string;
  includePaths : list string
}.

Definition defaultSettings : NavigatorSettings := {|
  perlPath := "perl"%string;
  enableAllWarnings := false;
  perlcriticPath := "perlcritic"%string;
  perlcriticProfile := ""%string;
  severity5 := "warning"%string;
  severity4 := "hint"%string;
  severity3 := "hint"%string;
  severity2 := "hint"%string;
  severity1 := "hint"%string;
  includePaths := []
|}.

(** ** Exceptions and promises *)

Inductive JsError :=
| TypeError (msg : string)
| URIError (msg : string)
| ResponseError (code : Z) (msg : string)
| OtherError (msg : string).

(** What a promise settles to. *)
Inductive Settled (A : Type) :=
| Fulfilled (a : A)
| Rejected (e : JsError).
Arguments Fulfilled {A} a.
Arguments Rejected {A} e.

(** The values of [documentSettings] and the results of
    [getDocumentSettings]: either [Promise.resolve(v)], or the promise that
    [connection.workspace.getConfiguration] returned for the request numbered
    [request].  The number is the promise's identity: a promise settles once,
    so whoever awaits it, and whenever, sees the client's one answer to that
    request. *)
Inductive SettingsThenable :=
| PromiseResolve (v : NavigatorSettings)
| ConfigurationRequest (request : nat).

(** ** The connection *)

Inductive LogMessage :=
| WorkspaceFolderChange      (* 'Workspace folder change event received.' *)
| FileChangeEvent            (* 'We received an file change event' *)
| CompilationTime (ms : Z)   (* "Compilation Time: " + ms/1000 + " seconds" *)
| PerlCriticTime (ms : Z).   (* "Perl Critic Time: " + ms/1000 + " seconds" *)

(** Everything the server does to the outside: messages to the client and
    the two analyses of ./diagnostics it starts. *)
Inductive Effect :=
| ClientRegisterDidChangeConfiguration
| OnDidChangeWorkspaceFolders
| ConsoleLog (msg : LogMessage)
| GetConfiguration (request : nat) (scopeUri : string) (section : string)
| GetWorkspaceFolders
| PerlCompile (filePath : string) (workspaceFolders : option (list WorkspaceFolder))
    (settings : NavigatorSettings)
| PerlCritic (filePath : string) (workspaceFolders : option (list WorkspaceFolder))
    (settings : NavigatorSettings)
| SendDiagnostics (resource : string) (diagnostics : list Diagnostic).

(** ** Server state: the module-level variables of server.ts *)

Record Server := {
  hasConfigurationCapability : bool;
  hasWorkspaceFolderCapability : bool;
  hasDiagnosticRelatedInformationCapability : bool;
  globalSettings : NavigatorSettings;
  documentSettings : gmap string SettingsThenable;
  documentDiags : gmap string (list Diagnostic);
  (* [documents]: the synced documents of the TextDocuments manager, in the
     order [documents.all()] lists them *)
  documents : list TextDocument;
  (* number of the next configuration request *)
  nextRequest : nat;
  (* effects so far, oldest first *)
  effects : list Effect
}.

Definition initial : Server := {|
  hasConfigurationCapability := false;
  hasWorkspaceFolderCapability := false;
  hasDiagnosticRelatedInformationCapability := false;
  globalSettings := defaultSettings;
  documentSettings := ∅;
  documentDiags := ∅;
  documents := [];
  nextRequest := 0;
  effects := []
|}.

Definition set_capabilities (c w d : bool) (st : Server) : Server := {|
  hasConfigurationCapability := c;
  hasWorkspaceFolderCapability := w;
  hasDiagnosticRelatedInformationCapability := d;
  globalSettings := globalSettings st;
  documentSettings := documentSettings st;
  documentDiags := documentDiags st;
  documents := documents st;
  nextRequest := nextRequest st;
  effects := effects st
|}.

Definition set_globalSettings (g : NavigatorSettings) (st : Server) : Server := {|
  hasConfigurationCapability := hasConfigurationCapability st;
  hasWorkspaceFolderCapability := hasWorkspaceFolderCapability st;
  hasDiagnosticRelatedInformationCapability := hasDiagnosticRelatedInformationCapability st;
  globalSettings := g;
  documentSettings := documentSettings st;
  documentDiags := documentDiags st;
  documents := documents st;
  nextRequest := nextRequest st;
  effects := effects st
|}.

Definition set_documentSettings (m : gmap string SettingsThenable) (st : Server) : Server := {|
  hasConfigurationCapability := hasConfigurationCapability st;
  hasWorkspaceFolderCapability := hasWorkspaceFolderCapability st;
  hasDiagnosticRelatedInformationCapability := hasDiagnosticRelatedInformationCapability st;
  globalSettings := globalSettings st;
  documentSettings := m;
  documentDiags := documentDiags st;
  documents := documents st;
  nextRequest := nextRequest st;
  effects := effects st
|}.

Definition set_documentDiags (m : gmap string (list Diagnostic)) (st : Server) : Server := {|
  hasConfigurationCapability := hasConfigurationCapability st;
  hasWorkspaceFolderCapability := hasWorkspaceFolderCapability st;
  hasDiagnosticRelatedInformationCapability := hasDiagnosticRelatedInformationCapability st;
  globalSettings := globalSettings st;
  documentSettings := documentSettings st;
  documentDiags := m;
  documents := documents st;
  nextRequest := nextRequest st;
  effects := effects st
|}.

Definition set_documents (l : list TextDocument) (st : Server) : Server := {|
  hasConfigurationCapability := hasConfigurationCapability st;
  hasWorkspaceFolderCapability := hasWorkspaceFolderCapability st;
  hasDiagnosticRelatedInformationCapability := hasDiagnosticRelatedInformationCapability st;
  globalSettings := globalSettings st;
  documentSettings := documentSettings st;
  documentDiags := documentDiags st;
  documents := l;
  nextRequest := nextRequest st;
  effects := effects st
|}.

Definition fresh_request (st : Server) : Server := {|
  hasConfigurationCapability := hasConfigurationCapability st;
  hasWorkspaceFolderCapability := hasWorkspaceFolderCapability st;
  hasDiagnosticRelatedInformationCapability := hasDiagnosticRelatedInformationCapability st;
  globalSettings := globalSettings st;
  documentSettings := documentSettings st;
  documentDiags := documentDiags st;
  documents := documents st;
  nextRequest := S (nextRequest st);
  effects := effects st
|}.

(** Append one effect to the log. *)
Definition emit (e : Effect) (st : Server) : Server := {|
  hasConfigurationCapability := hasConfigurationCapability st;
  hasWorkspaceFolderCapability := hasWorkspaceFolderCapability st;
  hasDiagnosticRelatedInformationCapability := hasDiagnosticRelatedInformationCapability st;
  globalSettings := globalSettings st;
  documentSettings := documentSettings st;
  documentDiags := documentDiags st;
  documents := documents st;
  nextRequest := nextRequest st;
  effects := effects st ++ [e]
|}.

(** ** Initialization *)

Record WorkspaceClientCapabilities := {
  configuration : option bool;
  workspaceFolders : option bool
}.

Record PublishDiagnosticsClientCapabilities := { relatedInformation : option bool }.

Record TextDocumentClientCapabilities := {
  publishDiagnostics : option PublishDiagnosticsClientCapabilities
}.

Record ClientCapabilities := {
  workspace : option WorkspaceClientCapabilities;
  textDocument : option TextDocumentClientCapabilities
}.

(** [!!x] of an optional boolean. *)
Definition truthy (b : option bool) : bool := default false b.

Record InitializeResult := {
  textDocumentSync_incremental : bool;
  workspaceFolders_supported : option bool
}.

Definition onInitialize (capabilities : ClientCapabilities) (st : Server)
  : InitializeResult * Server :=
  let c := match workspace capabilities with
           | Some w => truthy (configuration w)
           | None => false
           end in
  let w := match workspace capabilities with
           | Some w => truthy (workspaceFolders w)
           | None => false
           end in
  let d := match textDocument capabilities with
           | Some t => match publishDiagnostics t with
                       | Some p => truthy (relatedInformation p)
                       | None => false
                       end
           | None => false
           end in
  ({| textDocumentSync_incremental := true;
      workspaceFolders_supported := if w then Some true else None |},
   set_capabilities c w d st).

Definition onInitialized (st : Server) : Server :=
  let st1 := if hasConfigurationCapability st
             then emit ClientRegisterDidChangeConfiguration st else st in
  if hasWorkspaceFolderCapability st1
  then emit OnDidChangeWorkspaceFolders st1 else st1.

Definition onDidChangeWatchedFiles (st : Server) : Server :=
  emit (ConsoleLog FileChangeEvent) st.

(** ** The payload of a configuration change

    [change.settings] has type [any].  Reading a property of [null] or
    [undefined] throws a TypeError; reading one of any other value yields the
    property or [undefined].  [None] stands for a [perlnavigator] member that
    is absent or falsy, which is all that [||] tells apart. *)

Inductive SettingsPayload :=
| SettingsNullish
| SettingsObject (perlnavigator : option NavigatorSettings).

Record DidChangeConfigurationParams := { settings : SettingsPayload }.

(** ** Validation runs

    The states of one call of [validatePerlDocument]: the [await] it is
    suspended at, with the local variables still live there. *)

Inductive Run :=
| AwaitSettings (textDocument : TextDocument) (pending : SettingsThenable)
| AwaitWorkspaceFolders (textDocument : TextDocument) (settings : NavigatorSettings)
    (filePath : string) (start : Z)
| AwaitCompile (textDocument : TextDocument) (start : Z)
| AwaitCritic (textDocument : TextDocument) (start : Z) (diagPerl : list Diagnostic)
| Returned (textDocument : TextDocument)
| Threw (textDocument : TextDocument) (e : JsError).

Definition run_document (r : Run) : TextDocument :=
  match r with
  | AwaitSettings d _ | AwaitWorkspaceFolders d _ _ _ | AwaitCompile d _
  | AwaitCritic d _ _ | Returned d | Threw d _ => d
  end.

(** What wakes a suspended run: the awaited promise settles.  [now] is what
    [Date.now()] reads in the stretch that follows. *)
Inductive Wakeup :=
| SettingsSettled (now : Z)
| WorkspaceFoldersSettled (r : Settled (option (list WorkspaceFolder)))
| CompileSettled (r : Settled (list Diagnostic)) (now : Z)
| CriticSettled (r : Settled (list Diagnostic)) (now : Z).

Section Orchestration.

(** [Uri.parse(u).fsPath] of vscode-uri: the path, or the error thrown for
    a URI that cannot be decoded. *)
Variable fsPath : string → JsError + string.

(** The client's answer to each [workspace/configuration] request. *)
Variable client_reply : nat → Settled NavigatorSettings.

(** [await p] for a settings promise. *)
Definition await_settings (p : SettingsThenable) : Settled NavigatorSettings :=
  match p with
  | PromiseResolve v => Fulfilled v
  | ConfigurationRequest n => client_reply n
  end.

Definition getDocumentSettings (resource : string) (st : Server)
  : SettingsThenable * Server :=
  if negb (hasConfigurationCapability st) then
    (PromiseResolve (globalSettings st), st)
  else
    match documentSettings st !! resource with
    | Some result => (result, st)
    | None =>
        let result := ConfigurationRequest (nextRequest st) in
        let st1 := fresh_request
                     (emit (GetConfiguration (nextRequest st) resource "perlnavigator"%string) st) in
        (result, set_documentSettings (<[resource := result]> (documentSettings st1)) st1)
    end.

(** [validatePerlDocument(textDocument)]: the call itself, up to the first
    [await]. *)
Definition validatePerlDocument (textDocument : TextDocument) (st : Server)
  : Run * Server :=
  let '(p, st1) := getDocumentSettings (uri textDocument) st in
  (AwaitSettings textDocument p, st1).

(** The stretch of [validatePerlDocument] that follows each [await].  [None]:
    the run is not waiting for this. *)
Definition resume (r : Run) (w : Wakeup) (st : Server) : option (Run * Server) :=
  match r, w with
  | AwaitSettings textDocument p, SettingsSettled now =>
      match await_settings p with
      | Rejected e => Some (Threw textDocument e, st)
      | Fulfilled settings =>
          match fsPath (uri textDocument) with
          | inl e => Some (Threw textDocument e, st)
          | inr filePath =>
              let start := now in
              Some (AwaitWorkspaceFolders textDocument settings filePath start,
                    emit GetWorkspaceFolders st)
          end
      end
  | AwaitWorkspaceFolders textDocument settings filePath start,
    WorkspaceFoldersSettled res =>
      match res with
      | Rejected e => Some (Threw textDocument e, st)
      | Fulfilled workspaceFolders =>
          let st1 := emit (PerlCompile filePath workspaceFolders settings) st in
          let st2 := emit (PerlCritic filePath workspaceFolders settings) st1 in
          Some (AwaitCompile textDocument start, st2)
      end
  | AwaitCompile textDocument start, CompileSettled res now =>
      match res with
      | Rejected e => Some (Threw textDocument e, st)
      | Fulfilled diagPerl =>
          let st1 := emit (ConsoleLog (CompilationTime (now - start))) st in
          let allDiags := documentDiags st1 !! uri textDocument in
          let mixOldAndNew :=
            match allDiags with
            | Some allDiags => diagPerl ++ allDiags
            | None => diagPerl
            end in
          Some (AwaitCritic textDocument start diagPerl,
                emit (SendDiagnostics (uri textDocument) mixOldAndNew) st1)
      end
  | AwaitCritic textDocument start diagPerl, CriticSettled res now =>
      match res with
      | Rejected e => Some (Threw textDocument e, st)
      | Fulfilled diagCritic =>
          let st1 := set_documentDiags
                       (<[uri textDocument := diagCritic]> (documentDiags st)) st in
          let allNewDiags := diagPerl ++ diagCritic in
          let st2 := emit (ConsoleLog (PerlCriticTime (now - start))) st1 in
          Some (Returned textDocument,
                emit (SendDiagnostics (uri textDocument) allNewDiags) st2)
      end
  | _, _ => None
  end.

(** ** Handlers *)

(** [documents.all().forEach(validatePerlDocument)]. *)
Fixpoint forEach_validatePerlDocument (all : list TextDocument) (st : Server)
  : list Run * Server :=
  match all with
  | [] => ([], st)
  | textDocument :: rest =>
      let '(r, st1) := validatePerlDocument textDocument st in
      let '(rs, st2) := forEach_validatePerlDocument rest st1 in
      (r :: rs, st2)
  end.

(** [inl e]: the handler threw [e]; otherwise the runs it started. *)
Definition onDidChangeConfiguration (change : DidChangeConfigurationParams) (st : Server)
  : JsError + (list Run * Server) :=
  if hasConfigurationCapability st then
    let st1 := set_documentSettings ∅ st in
    inr (forEach_validatePerlDocument (documents st1) st1)
  else
    match settings change with
    | SettingsNullish =>
        inl (TypeError "Cannot read properties of null (reading 'perlnavigator')"%string)
    | SettingsObject perlnavigator =>
        let st1 := set_globalSettings (default defaultSettings perlnavigator) st in
        inr (forEach_validatePerlDocument (documents st1) st1)
    end.

Definition onDidClose (document : TextDocument) (st : Server) : Server :=
  let st1 := set_documentSettings (delete (uri document) (documentSettings st)) st in
  let st2 := set_documentDiags (delete (uri document) (documentDiags st1)) st1 in
  emit (SendDiagnostics (uri document) []) st2.

Definition onDidOpen (document : TextDocument) (st : Server) : Run * Server :=
  validatePerlDocument document st.

Definition onDidSave (document : TextDocument) (st : Server) : Run * Server :=
  validatePerlDocument document st.

(** ** A run on its own

    One run taken from the call to its end with nothing else in between.
    [wake] ignores a wake-up the run is not waiting for (a run that threw
    stays as it is). *)

Record RunInputs := {
  start_time : Z;
  workspace_folders : Settled (option (list WorkspaceFolder));
  compile_result : Settled (list Diagnostic);
  compile_time : Z;
  critic_result : Settled (list Diagnostic);
  critic_time : Z
}.

Definition wake (w : Wakeup) (rs : Run * Server) : Run * Server :=
  default rs (resume rs.1 w rs.2).

(** The run up to the point where it waits for perlcompile. *)
Definition dispatched (textDocument : TextDocument) (i : RunInputs) (st : Server)
  : Run * Server :=
  wake (WorkspaceFoldersSettled (workspace_folders i))
    (wake (SettingsSettled (start_time i)) (validatePerlDocument textDocument st)).

(** The run up to the point where it waits for perlcritic. *)
Definition stage1 (textDocument : TextDocument) (i : RunInputs) (st : Server)
  : Run * Server :=
  wake (CompileSettled (compile_result i) (compile_time i)) (dispatched textDocument i st).

Definition validation_run (textDocument : TextDocument) (i : RunInputs) (st : Server)
  : Run * Server :=
  wake (CriticSettled (critic_result i) (critic_time i)) (stage1 textDocument i st).

(** ** The server as a whole: notifications and settling promises, in any
    order, over the runs in flight *)

Inductive Event :=
| DidOpen (document : TextDocument)
| DidSave (document : TextDocument)
| DidClose (document : TextDocument)
| DidChangeConfiguration (change : DidChangeConfigurationParams)
| DidChangeWatchedFiles
| Settle (run : nat) (w : Wakeup).

Record System := { server : Server; runs : list Run }.

(** The TextDocuments manager's own bookkeeping of [documents], done before
    it fires [onDidOpen] and [onDidClose]. *)
Fixpoint documents_set (d : TextDocument) (l : list TextDocument) : list TextDocument :=
  match l with
  | [] => [d]
  | x :: rest =>
      if decide (uri x = uri d) then d :: rest else x :: documents_set d rest
  end.

Definition documents_delete (u : string) (l : list TextDocument) : list TextDocument :=
  filter (λ x, uri x ≠ u) l.

(** A handler that throws leaves the state as it was when it threw; the
    connection reports the error and carries on. *)
Definition deliver (ev : Event) (sys : System) : System :=
  match ev with
  | DidOpen d =>
      let st := set_documents (documents_set d (documents (server sys))) (server sys) in
      let '(r, st1) := onDidOpen d st in
      {| server := st1; runs := runs sys ++ [r] |}
  | DidSave d =>
      let '(r, st1) := onDidSave d (server sys) in
      {| server := st1; runs := runs sys ++ [r] |}
  | DidClose d =>
      let st := set_documents (documents_delete (uri d) (documents (server sys)))
                  (server sys) in
      {| server := onDidClose d st; runs := runs sys |}
  | DidChangeConfiguration change =>
      match onDidChangeConfiguration change (server sys) with
      | inl _ => sys
      | inr (rs, st1) => {| server := st1; runs := runs sys ++ rs |}
      end
  | DidChangeWatchedFiles =>
      {| server := onDidChangeWatchedFiles (server sys); runs := runs sys |}
  | Settle n w =>
      match runs sys !! n with
      | Some r =>
          match resume r w (server sys) with
          | Some (r', st1) => {| server := st1; runs := <[n := r']> (runs sys) |}
          | None => sys
          end
      | None => sys
      end
  end.

Definition deliver_all (evs : list Event) (sys : System) : System :=
  foldl (λ s ev, deliver ev s) sys evs.

(** Does the event drop the cached settings of [resource]?  The two places
    that remove entries of [documentSettings]: [clear] in
    [onDidChangeConfiguration], [delete] in [onDidClose]. *)
Definition removes_settings (resource : string) (ev : Event) : bool :=
  match ev with
  | DidChangeConfiguration _ => true
  | DidClose d => bool_decide (uri d = resource)
  | _ => false
  end.

(** ** Reading the log *)

(** The effects added between two states. *)
Definition effects_since (st st' : Server) : list Effect :=
  drop (length (effects st)) (effects st').

(** The calls of [connection.sendDiagnostics] among some effects. *)
Definition publishes (es : list Effect) : list (string * list Diagnostic) :=
  omap (λ e, match e with
             | SendDiagnostics u ds => Some (u, ds)
             | _ => None
             end) es.

(** Does the wake-up hand the run the result of an analysis? *)
Definition consumes_analysis (w : Wakeup) : bool :=
  match w with
  | CompileSettled _ _ | CriticSettled _ _ => true
  | _ => false
  end.

(** ** Invariants of the settings cache *)

(** Every cached promise is a configuration request numbered from [lo] on
    and already issued. *)
Definition requests_from (lo : nat) (st : Server) : Prop :=
  ∀ u p, documentSettings st !! u = Some p →
         ∃ n, p = ConfigurationRequest n ∧ lo ≤ n ∧ n < nextRequest st.

(** Request [n] is what the cache holds for [resource], on a server that
    uses scoped requests. *)
Definition cached_request (resource : string) (n : nat) (st : Server) : Prop :=
  hasConfigurationCapability st = true ∧
  documentSettings st !! resource = Some (ConfigurationRequest n) ∧
  n < nextRequest st.

(** A run fresh from its call: suspended at its first [await]. *)
Definition started_for (r : Run) (d : TextDocument) : Prop :=
  ∃ p, r = AwaitSettings d p.

(** ** Sample data: the scenario of the specification's section 8 *)

Definition a_pl : TextDocument := {|
  uri := "file:///a.pl"%string;
  languageId := "perl"%string;
  version := 1;
  getText := "print 'a'"%string
|}.

Definition b_pl : TextDocument := {|
  uri := "file:///b.pl"%string;
  languageId := "perl"%string;
  version := 1;
  getText := "1;"%string
|}.

Definition diagnostic_at (l : nat) (msg : string) : Diagnostic := {|
  range := {| range_start := {| line := l; character := 0 |};
              range_end := {| line := l; character := 100 |} |};
  severity := Some SevWarning;
  source := None;
  message := msg
|}.

Definition syntax_error : Diagnostic := diagnostic_at 3 "syntax error"%string.

Definition missing_strict : Diagnostic :=
  diagnostic_at 10 "style: missing strict"%string.

Definition is_hex (c : Ascii.ascii) : bool :=
  let n := Ascii.nat_of_ascii c in
  (Nat.leb 48 n && Nat.leb n 57) || (Nat.leb 65 n && Nat.leb n 70)
  || (Nat.leb 97 n && Nat.leb n 102).

(** Is there a [%] that two hexadecimal digits do not follow? *)
Fixpoint malformed_escape (u : string) : bool :=
  match u with
  | EmptyString => false
  | String c rest =>
      (Nat.eqb (Ascii.nat_of_ascii c) 37 &&
       negb match rest with
            | String a (String b _) => is_hex a && is_hex b
            | _ => false
            end)
      || malformed_escape rest
  end.

(** A sample decoder: drops the seven characters of [file://], and throws
    on a malformed escape, where [decodeURIComponent] does. *)
Definition file_fsPath (u : string) : JsError + string :=
  if malformed_escape u then inl (URIError "URI malformed"%string)
  else inr (String.substring 7 (String.length u - 7) u).

(** A document whose URI cannot be decoded. *)
Definition percent_pl : TextDocument := {|
  uri := "file:///100%.pl"%string;
  languageId := "perl"%string;
  version := 1;
  getText := "1;"%string
|}.

Definition reply_defaults (n : nat) : Settled NavigatorSettings :=
  Fulfilled defaultSettings.

Definition reply_failure (n : nat) : Settled NavigatorSettings :=
  Rejected (ResponseError (-32603) "Internal error"%string).

(** A client that supports [workspace/configuration]. *)
Definition scoped : Server := set_capabilities true false false initial.

Definition first_run : RunInputs := {|
  start_time := 0;
  workspace_folders := Fulfilled None;
  compile_result := Fulfilled [syntax_error];
  compile_time := 50;
  critic_result := Fulfilled [missing_strict];
  critic_time := 400
|}.

Definition second_run : RunInputs := {|
  start_time := 1000;
  workspace_folders := Fulfilled None;
  compile_result := Fulfilled [];
  compile_time := 1050;
  critic_result := Fulfilled [missing_strict];
  critic_time := 1400
|}.

(** Settings other than the defaults. *)
Definition customised : NavigatorSettings := {|
  perlPath := "/opt/perl/bin/perl"%string;
  enableAllWarnings := true;
  perlcriticPath := "perlcritic"%string;
  perlcriticProfile := ""%string;
  severity5 := "error"%string;
  severity4 := "warning"%string;
  severity3 := "hint"%string;
  severity2 := "hint"%string;
  severity1 := "hint"%string;
  includePaths := []
|}.

(** A client without [workspace/configuration], [customised] pushed earlier,
    a.pl open. *)
Definition unscoped : Server :=
  set_globalSettings customised (set_documents [a_pl] initial).

(** [{ settings: null }] *)
Definition null_settings : DidChangeConfigurationParams :=
  {| settings := SettingsNullish |}.

(** a.pl has been validated once: its critic diagnostics are retained. *)
Definition retaining : Server :=
  set_documentDiags (<[uri a_pl := [missing_strict]]> ∅) initial.

(** The first run again, later: the same answers from both analyses. *)
Definition repeat_run : RunInputs := {|
  start_time := 2000;
  workspace_folders := Fulfilled (Some []);
  compile_result := Fulfilled [syntax_error];
  compile_time := 2060;
  critic_result := Fulfilled [missing_strict];
  critic_time := 2500
|}.

(** ** Further readings of runs and of the log *)

(** A run woken several times in a row. *)
Definition wake_all (ws : list Wakeup) (rs : Run * Server) : Run * Server :=
  foldl (λ acc w, wake w acc) rs ws.

(** The calls of [connection.sendDiagnostics] a run still has before it. *)
Definition publishes_left (r : Run) : nat :=
  match r with
  | AwaitSettings _ _ | AwaitWorkspaceFolders _ _ _ _ | AwaitCompile _ _ => 2
  | AwaitCritic _ _ _ => 1
  | Returned _ | Threw _ _ => 0
  end.

Definition is_analysis_start (e : Effect) : bool :=
  match e with
  | PerlCompile _ _ _ | PerlCritic _ _ _ => true
  | _ => false
  end.

Definition is_configuration_request (e : Effect) : bool :=
  match e with
  | GetConfiguration _ _ _ => true
  | _ => false
  end.

(** The events that write the entry of [u] in [documentDiags]: closing the
    document ([delete], line 134) and perlcritic's diagnostics arriving at a
    run of the document ([set], line 169). *)
Definition writes_diags (u : string) (sys : System) (ev : Event) : bool :=
  match ev with
  | DidClose d => bool_decide (uri d = u)
  | Settle k (CriticSettled (Fulfilled _) _) =>
      match runs sys !! k with
      | Some (AwaitCritic d _ _) => bool_decide (uri d = u)
      | _ => false
      end
  | _ => false
  end.

(** Every cached promise answers a request that was sent for the very
    document it is cached under, for the section 'perlnavigator'. *)
Definition cache_scoped (st : Server) : Prop :=
  ∀ u p, documentSettings st !! u = Some p →
         ∃ n, p = ConfigurationRequest n ∧
              GetConfiguration n u "perlnavigator"%string ∈ effects st.

(** A client that announces nothing under [workspace]. *)
Definition bare_client : ClientCapabilities :=
  {| workspace := None; textDocument := None |}.

(** A client that announces [workspace/configuration] and workspace
    folders. *)
Definition full_client : ClientCapabilities :=
  {| workspace := Some {| configuration := Some true; workspaceFolders := Some true |};
     textDocument := Some {| publishDiagnostics :=
                               Some {| relatedInformation := Some true |} |} |}.

Definition spawn_failed : JsError := OtherError "spawn perl ENOENT"%string.

(** perlcompile's promise rejects; perlcritic answers. *)
Definition compile_rejecting_run : RunInputs := {|
  start_time := 0;
  workspace_folders := Fulfilled None;
  compile_result := Rejected spawn_failed;
  compile_time := 5;
  critic_result := Fulfilled [missing_strict];
  critic_time := 400
|}.

(** perlcompile answers; perlcritic's promise rejects. *)
Definition critic_rejecting_run : RunInputs := {|
  start_time := 0;
  workspace_folders := Fulfilled None;
  compile_result := Fulfilled [syntax_error];
  compile_time := 50;
  critic_result := Rejected spawn_failed;
  critic_time := 400
|}.

(** The request for the workspace folders fails. *)
Definition folders_rejecting_run : RunInputs := {|
  start_time := 0;
  workspace_folders := Rejected (ResponseError (-32601) "Method not found"%string);
  compile_result := Fulfilled [syntax_error];
  compile_time := 50;
  critic_result := Fulfilled [missing_strict];
  critic_time := 400
|}.

(** Scoped requests, a.pl and b.pl open. *)
Definition scoped_two_open : Server :=
  set_documents [a_pl; b_pl] scoped.

(** [{ settings: { perlnavigator: customised } }] *)
Definition push_customised : DidChangeConfigurationParams :=
  {| settings := SettingsObject (Some customised) |}.


(** * Properties *)

(** *** Initialization *)

(** The server uses scoped requests exactly when the client announces
    [workspace.configuration]. *)
Lemma onInitialize_configuration (capabilities : ClientCapabilities) (st : Server) :
  hasConfigurationCapability (onInitialize capabilities st).2 = true
  ↔ ∃ w, workspace capabilities = Some w ∧ configuration w = Some true.
Proof.
  unfold onInitialize. simpl. destruct (workspace capabilities) as [w|]; simpl.
  - split.
    + intros H. exists w. split; [done|].
      destruct (configuration w) as [[|]|]; simpl in H; done.
    + intros (w' & [= <-] & ->). done.
  - split; [done|]. by intros (w & ? & _).
Qed.

(** *** The log *)

Lemma effects_since_app (st st' : Server) (es : list Effect) :
  effects st' = effects st ++ es → effects_since st st' = es.
Proof.
  unfold effects_since. intros ->. by rewrite drop_app_length.
Qed.

Lemma effects_emit (e : Effect) (st : Server) :
  effects (emit e st) = effects st ++ [e].
Proof. reflexivity. Qed.

Lemma run_document_resume (r r' : Run) (w : Wakeup) (st st' : Server) :
  resume r w st = Some (r', st') → run_document r' = run_document r.
Proof.
  destruct r, w; simpl; try discriminate.
  - destruct (await_settings pending); [destruct (fsPath _)|];
      intros [= <- _]; reflexivity.
  - destruct r; intros [= <- _]; reflexivity.
  - destruct r; intros [= <- _]; reflexivity.
  - destruct r; intros [= <- _]; reflexivity.
Qed.

(** A stretch that logs a line and then publishes has published once. *)
Lemma publishes_log_send (st st0 : Server) (msg : LogMessage) (u : string)
    (ds : list Diagnostic) :
  effects st0 = effects st →
  publishes (effects_since st (emit (SendDiagnostics u ds) (emit (ConsoleLog msg) st0)))
    = [(u, ds)].
Proof.
  intros Heff.
  rewrite (effects_since_app st _ [ConsoleLog msg; SendDiagnostics u ds]).
  - reflexivity.
  - simpl. by rewrite Heff, <- app_assoc.
Qed.

(** *** Stage 1 *)

(** C1. When perlcompile's promise is fulfilled with [diagPerl], the run
    waiting for it sends one publish for its document: [diagPerl] followed by
    the diagnostics retained in [documentDiags] if there is an entry, and
    [diagPerl] alone if there is none.  So with an entry [retained] and no
    fast diagnostics at all, the publish carries [retained]. *)
Theorem stage1_publish (textDocument : TextDocument) (start now : Z)
    (diagPerl : list Diagnostic) (st : Server) :
  ∃ st',
    resume (AwaitCompile textDocument start) (CompileSettled (Fulfilled diagPerl) now) st
      = Some (AwaitCritic textDocument start diagPerl, st') ∧
    (∀ retained, documentDiags st !! uri textDocument = Some retained →
          publishes (effects_since st st') = [(uri textDocument, diagPerl ++ retained)]) ∧
    (documentDiags st !! uri textDocument = None →
          publishes (effects_since st st') = [(uri textDocument, diagPerl)]) ∧
    (∀ retained, documentDiags st !! uri textDocument = Some retained → diagPerl = [] →
          publishes (effects_since st st') = [(uri textDocument, retained)]).
Proof.
  eexists. split; [reflexivity|].
  rewrite publishes_log_send by reflexivity. simpl. repeat split.
  - intros retained ->. reflexivity.
  - intros ->. reflexivity.
  - intros retained -> ->. reflexivity.
Qed.

(** *** Stage 2 *)

(** C2. When perlcritic's promise is fulfilled with [diagCritic], the run
    waiting for it overwrites the entry of its document in [documentDiags]
    with [diagCritic] and sends one publish: the [diagPerl] that the same run
    received at stage 1, followed by [diagCritic].  The fast-check part of the
    two payloads of the run is the same list, whatever happened to the server
    between the two stages ([st2] is any state). *)
Theorem stage2_publish (textDocument : TextDocument) (start now1 now2 : Z)
    (diagPerl diagCritic : list Diagnostic) (st1 st2 : Server) :
  ∃ st1' st2' payload1 payload2,
    resume (AwaitCompile textDocument start) (CompileSettled (Fulfilled diagPerl) now1) st1
      = Some (AwaitCritic textDocument start diagPerl, st1') ∧
    resume (AwaitCritic textDocument start diagPerl)
           (CriticSettled (Fulfilled diagCritic) now2) st2
      = Some (Returned textDocument, st2') ∧
    documentDiags st2' = <[uri textDocument := diagCritic]> (documentDiags st2) ∧
    documentDiags st2' !! uri textDocument = Some diagCritic ∧
    publishes (effects_since st1 st1') = [(uri textDocument, payload1)] ∧
    publishes (effects_since st2 st2') = [(uri textDocument, payload2)] ∧
    payload2 = diagPerl ++ diagCritic ∧
    take (length diagPerl) payload1 = diagPerl ∧
    take (length diagPerl) payload2 = diagPerl.
Proof.
  do 2 eexists.
  exists (match documentDiags st1 !! uri textDocument with
          | Some old => diagPerl ++ old
          | None => diagPerl
          end), (diagPerl ++ diagCritic).
  split; [reflexivity|]. split; [reflexivity|].
  split; [reflexivity|]. split; [simpl; apply lookup_insert_eq|].
  split; [by apply publishes_log_send|]. split; [by apply publishes_log_send|].
  split; [reflexivity|]. split.
  - destruct (documentDiags st1 !! uri textDocument).
    + by rewrite take_app_length.
    + by rewrite firstn_all.
  - by rewrite take_app_length.
Qed.

(** *** Closing a document *)

(** C3. After [onDidClose] for a document, neither [documentSettings] nor
    [documentDiags] has an entry under its URI, and the handler has sent one
    publish for that URI, with no diagnostics. *)
Theorem close_clears_document (document : TextDocument) (st : Server) :
  documentSettings (onDidClose document st) !! uri document = None ∧
  documentDiags (onDidClose document st) !! uri document = None ∧
  effects (onDidClose document st) = effects st ++ [SendDiagnostics (uri document) []] ∧
  publishes (effects_since st (onDidClose document st)) = [(uri document, [])].
Proof.
  repeat split.
  - apply lookup_delete_eq.
  - apply lookup_delete_eq.
  - by rewrite (effects_since_app st _ [SendDiagnostics (uri document) []]).
Qed.

(** *** The settings cache *)

Lemma getDocumentSettings_global (resource : string) (st : Server) :
  hasConfigurationCapability st = false →
  getDocumentSettings resource st = (PromiseResolve (globalSettings st), st).
Proof. unfold getDocumentSettings. intros ->. reflexivity. Qed.

Lemma getDocumentSettings_cached (resource : string) (st : Server) (p : SettingsThenable) :
  hasConfigurationCapability st = true →
  documentSettings st !! resource = Some p →
  getDocumentSettings resource st = (p, st).
Proof. unfold getDocumentSettings. intros -> ->. reflexivity. Qed.

Lemma getDocumentSettings_request (resource : string) (st : Server) :
  hasConfigurationCapability st = true →
  documentSettings st !! resource = None →
  ∃ st', getDocumentSettings resource st = (ConfigurationRequest (nextRequest st), st') ∧
    hasConfigurationCapability st' = true ∧
    globalSettings st' = globalSettings st ∧
    documentSettings st'
      = <[resource := ConfigurationRequest (nextRequest st)]> (documentSettings st) ∧
    documentDiags st' = documentDiags st ∧
    documents st' = documents st ∧
    nextRequest st' = S (nextRequest st) ∧
    effects st'
      = effects st ++ [GetConfiguration (nextRequest st) resource "perlnavigator"%string].
Proof.
  unfold getDocumentSettings. intros Hcap ->. rewrite Hcap. simpl.
  eexists. split; [reflexivity|]. simpl. by rewrite Hcap.
Qed.

(** A call leaves the promise it returns in place for the next call: asking
    again returns it and changes nothing. *)
Lemma getDocumentSettings_again (resource : string) (st : Server) :
  getDocumentSettings resource (getDocumentSettings resource st).2
    = ((getDocumentSettings resource st).1, (getDocumentSettings resource st).2).
Proof.
  destruct (hasConfigurationCapability st) eqn:Hcap.
  - destruct (documentSettings st !! resource) as [p|] eqn:Hget.
    + rewrite (getDocumentSettings_cached resource st p Hcap Hget). simpl.
      by apply getDocumentSettings_cached.
    + destruct (getDocumentSettings_request resource st Hcap Hget)
        as (st' & -> & Hcap' & _ & Hm & _). simpl.
      apply getDocumentSettings_cached; [done|].
      rewrite Hm. apply lookup_insert_eq.
  - rewrite (getDocumentSettings_global resource st Hcap). simpl.
    by apply getDocumentSettings_global.
Qed.

Lemma getDocumentSettings_frame (resource : string) (st : Server) :
  let st' := (getDocumentSettings resource st).2 in
  hasConfigurationCapability st' = hasConfigurationCapability st ∧
  globalSettings st' = globalSettings st ∧
  documentDiags st' = documentDiags st ∧
  documents st' = documents st ∧
  nextRequest st ≤ nextRequest st'.
Proof.
  unfold getDocumentSettings.
  destruct (hasConfigurationCapability st) eqn:Hcap; simpl.
  - destruct (documentSettings st !! resource); simpl; repeat split; auto.
  - repeat split; auto.
Qed.

(** C7. With scoped configuration requests supported and nothing cached for
    the document, [getDocumentSettings] issues the request and hands its
    caller the very promise of that request.  If the client fails the
    request, awaiting the result rejects with the client's error: it is
    fulfilled with no settings at all, the defaults included, and the caller
    [validatePerlDocument] throws that error at its first [await]. *)
Theorem settings_failure_propagates (textDocument : TextDocument) (st : Server)
    (e : JsError) (now : Z) :
  hasConfigurationCapability st = true →
  documentSettings st !! uri textDocument = None →
  client_reply (nextRequest st) = Rejected e →
  ∃ st',
    getDocumentSettings (uri textDocument) st
      = (ConfigurationRequest (nextRequest st), st') ∧
    effects st' = effects st
      ++ [GetConfiguration (nextRequest st) (uri textDocument) "perlnavigator"%string] ∧
    await_settings (ConfigurationRequest (nextRequest st)) = Rejected e ∧
    (∀ v, await_settings (ConfigurationRequest (nextRequest st))
            ≠ Fulfilled v) ∧
    validatePerlDocument textDocument st
      = (AwaitSettings textDocument (ConfigurationRequest (nextRequest st)), st') ∧
    resume
      (AwaitSettings textDocument (ConfigurationRequest (nextRequest st)))
      (SettingsSettled now) st'
      = Some (Threw textDocument e, st').
Proof.
  intros Hcap Hmiss Hfail.
  destruct (getDocumentSettings_request (uri textDocument) st Hcap Hmiss)
    as (st' & Hget & _ & _ & _ & _ & _ & _ & Heff).
  exists st'. split; [exact Hget|]. split; [exact Heff|].
  split; [exact Hfail|]. split.
  { intros v. simpl. rewrite Hfail. discriminate. }
  split.
  { unfold validatePerlDocument. by rewrite Hget. }
  simpl. by rewrite Hfail.
Qed.

(** *** A run on its own, step by step *)

Lemma dispatched_fulfilled (textDocument : TextDocument) (i : RunInputs) (st : Server)
    (settings : NavigatorSettings) (filePath : string)
    (folders : option (list WorkspaceFolder)) :
  await_settings (getDocumentSettings (uri textDocument) st).1 = Fulfilled settings →
  fsPath (uri textDocument) = inr filePath →
  workspace_folders i = Fulfilled folders →
  dispatched textDocument i st
    = (AwaitCompile textDocument (start_time i),
       emit (PerlCritic filePath folders settings)
         (emit (PerlCompile filePath folders settings)
            (emit GetWorkspaceFolders (getDocumentSettings (uri textDocument) st).2))).
Proof.
  intros Hs Hp Hf. unfold dispatched, wake, validatePerlDocument.
  destruct (getDocumentSettings (uri textDocument) st) as [p st0]. simpl in *.
  rewrite Hs. simpl. rewrite Hp. simpl. rewrite Hf. reflexivity.
Qed.

Lemma dispatched_documentDiags (textDocument : TextDocument) (i : RunInputs) (st : Server) :
  documentDiags (dispatched textDocument i st).2 = documentDiags st.
Proof.
  unfold dispatched, wake, validatePerlDocument.
  pose proof (getDocumentSettings_frame (uri textDocument) st) as (_ & _ & Hd & _).
  destruct (getDocumentSettings (uri textDocument) st) as [p st0]. simpl in *.
  destruct (await_settings p); simpl; [|done].
  destruct (fsPath (uri textDocument)); simpl; [done|].
  destruct (workspace_folders i); simpl; done.
Qed.

Lemma stage1_fulfilled (textDocument : TextDocument) (i : RunInputs) (st : Server)
    (settings : NavigatorSettings) (filePath : string)
    (folders : option (list WorkspaceFolder))
    (diagPerl : list Diagnostic) :
  await_settings (getDocumentSettings (uri textDocument) st).1 = Fulfilled settings →
  fsPath (uri textDocument) = inr filePath →
  workspace_folders i = Fulfilled folders →
  compile_result i = Fulfilled diagPerl →
  stage1 textDocument i st
    = (AwaitCritic textDocument (start_time i) diagPerl,
       emit (SendDiagnostics (uri textDocument)
               match documentDiags st !! uri textDocument with
               | Some allDiags => diagPerl ++ allDiags
               | None => diagPerl
               end)
         (emit (ConsoleLog (CompilationTime (compile_time i - start_time i)))
            (dispatched textDocument i st).2)).
Proof.
  intros Hs Hp Hf Hc. unfold stage1.
  rewrite <- (dispatched_documentDiags textDocument i st).
  rewrite (dispatched_fulfilled textDocument i st settings filePath folders Hs Hp Hf).
  unfold wake. simpl. rewrite Hc. reflexivity.
Qed.

Lemma validation_run_fulfilled (textDocument : TextDocument) (i : RunInputs) (st : Server)
    (settings : NavigatorSettings) (filePath : string)
    (folders : option (list WorkspaceFolder))
    (diagPerl diagCritic : list Diagnostic) :
  await_settings (getDocumentSettings (uri textDocument) st).1 = Fulfilled settings →
  fsPath (uri textDocument) = inr filePath →
  workspace_folders i = Fulfilled folders →
  compile_result i = Fulfilled diagPerl →
  critic_result i = Fulfilled diagCritic →
  validation_run textDocument i st
    = (Returned textDocument,
       emit (SendDiagnostics (uri textDocument) (diagPerl ++ diagCritic))
         (emit (ConsoleLog (PerlCriticTime (critic_time i - start_time i)))
            (set_documentDiags (<[uri textDocument := diagCritic]> (documentDiags st))
               (stage1 textDocument i st).2))).
Proof.
  intros Hs Hp Hf Hc Hl. unfold validation_run.
  rewrite <- (dispatched_documentDiags textDocument i st) at 1.
  rewrite (stage1_fulfilled textDocument i st settings filePath folders diagPerl Hs Hp Hf Hc).
  unfold wake. simpl. rewrite Hl. reflexivity.
Qed.

(** What a run that meets no failure adds to the log, in order: the two
    analyses are started, then come the log line and the publish of stage 1,
    then those of stage 2. *)
Lemma validation_run_effects (textDocument : TextDocument) (i : RunInputs) (st : Server)
    (settings : NavigatorSettings) (filePath : string)
    (folders : option (list WorkspaceFolder))
    (diagPerl diagCritic : list Diagnostic) :
  await_settings (getDocumentSettings (uri textDocument) st).1 = Fulfilled settings →
  fsPath (uri textDocument) = inr filePath →
  workspace_folders i = Fulfilled folders →
  compile_result i = Fulfilled diagPerl →
  critic_result i = Fulfilled diagCritic →
  effects (validation_run textDocument i st).2
    = effects (getDocumentSettings (uri textDocument) st).2
      ++ [GetWorkspaceFolders;
          PerlCompile filePath folders settings;
          PerlCritic filePath folders settings;
          ConsoleLog (CompilationTime (compile_time i - start_time i));
          SendDiagnostics (uri textDocument)
            match documentDiags st !! uri textDocument with
            | Some allDiags => diagPerl ++ allDiags
            | None => diagPerl
            end;
          ConsoleLog (PerlCriticTime (critic_time i - start_time i));
          SendDiagnostics (uri textDocument) (diagPerl ++ diagCritic)].
Proof.
  intros Hs Hp Hf Hc Hl.
  rewrite (validation_run_fulfilled textDocument i st settings filePath folders
             diagPerl diagCritic Hs Hp Hf Hc Hl).
  rewrite (stage1_fulfilled textDocument i st settings filePath folders diagPerl Hs Hp Hf Hc).
  rewrite (dispatched_fulfilled textDocument i st settings filePath folders Hs Hp Hf).
  simpl. rewrite <- !app_assoc. reflexivity.
Qed.

Lemma getDocumentSettings_effects (resource : string) (st : Server) :
  ∃ es, effects (getDocumentSettings resource st).2 = effects st ++ es ∧
        publishes es = [].
Proof.
  unfold getDocumentSettings.
  destruct (hasConfigurationCapability st); simpl.
  - destruct (documentSettings st !! resource); simpl.
    + exists []. by rewrite app_nil_r.
    + eexists. split; reflexivity.
  - exists []. by rewrite app_nil_r.
Qed.

(** The publishes of such a run: stage 1, then stage 2. *)
Lemma validation_run_publishes (textDocument : TextDocument) (i : RunInputs) (st : Server)
    (settings : NavigatorSettings) (filePath : string)
    (folders : option (list WorkspaceFolder))
    (diagPerl diagCritic : list Diagnostic) :
  await_settings (getDocumentSettings (uri textDocument) st).1 = Fulfilled settings →
  fsPath (uri textDocument) = inr filePath →
  workspace_folders i = Fulfilled folders →
  compile_result i = Fulfilled diagPerl →
  critic_result i = Fulfilled diagCritic →
  publishes (effects_since st (validation_run textDocument i st).2)
    = [(uri textDocument,
        match documentDiags st !! uri textDocument with
        | Some allDiags => diagPerl ++ allDiags
        | None => diagPerl
        end);
       (uri textDocument, diagPerl ++ diagCritic)].
Proof.
  intros Hs Hp Hf Hc Hl.
  pose proof (validation_run_effects textDocument i st settings filePath folders
                diagPerl diagCritic Hs Hp Hf Hc Hl) as Heff.
  destruct (getDocumentSettings_effects (uri textDocument) st) as (es & Hes & Hpub).
  rewrite Hes, <- app_assoc in Heff.
  rewrite (effects_since_app _ _ _ Heff).
  unfold publishes in *. rewrite omap_app, Hpub. reflexivity.
Qed.

(** *** Dispatch *)

(** C5. The stretch of a run that follows the workspace folders starts
    perlcompile and then perlcritic, and only then suspends, waiting for
    perlcompile: both are started in one go, with no [await] in between.  A
    result of either analysis reaches a run only in the states
    [AwaitCompile] and [AwaitCritic]; the former is entered by that stretch
    alone, the latter from the former alone, and a call starts in neither.
    In the log of a run on its own that gets as far as dispatch (its
    settings arrive, its URI decodes, the workspace folders arrive) and
    whose analyses answer, the start of perlcritic comes right after the
    start of perlcompile and before the first publish. *)
Theorem analyses_started_before_await :
  (∀ textDocument settings filePath start folders st,
     ∃ st',
       resume (AwaitWorkspaceFolders textDocument settings filePath start)
              (WorkspaceFoldersSettled (Fulfilled folders)) st
         = Some (AwaitCompile textDocument start, st') ∧
       effects st' = effects st ++ [PerlCompile filePath folders settings;
                                    PerlCritic filePath folders settings]) ∧
  (∀ r w st, consumes_analysis w = true → is_Some (resume r w st) →
     (∃ d s, r = AwaitCompile d s) ∨ (∃ d s f, r = AwaitCritic d s f)) ∧
  (∀ r w st d s st', resume r w st = Some (AwaitCompile d s, st') →
     consumes_analysis w = false ∧
     ∃ filePath folders settings,
       effects st' = effects st ++ [PerlCompile filePath folders settings;
                                    PerlCritic filePath folders settings]) ∧
  (∀ r w st d s f st', resume r w st = Some (AwaitCritic d s f, st') →
     r = AwaitCompile d s) ∧
  (∀ d st, ∃ p, (validatePerlDocument d st).1 = AwaitSettings d p) ∧
  (∀ textDocument i st settings filePath folders diagPerl diagCritic,
     await_settings (getDocumentSettings (uri textDocument) st).1 = Fulfilled settings →
     fsPath (uri textDocument) = inr filePath →
     workspace_folders i = Fulfilled folders →
     compile_result i = Fulfilled diagPerl →
     critic_result i = Fulfilled diagCritic →
     ∃ before after,
       effects (validation_run textDocument i st).2
         = before ++ [PerlCompile filePath folders settings;
                      PerlCritic filePath folders settings] ++ after ∧
       effects (dispatched textDocument i st).2
         = before ++ [PerlCompile filePath folders settings;
                      PerlCritic filePath folders settings] ∧
       publishes (drop (length (effects st)) before) = [] ∧
       publishes after = [(uri textDocument,
                           match documentDiags st !! uri textDocument with
                           | Some allDiags => diagPerl ++ allDiags
                           | None => diagPerl
                           end);
                          (uri textDocument, diagPerl ++ diagCritic)]).
Proof.
  split; [|split; [|split; [|split; [|split]]]].
  - intros. eexists. split; [reflexivity|]. simpl. by rewrite <- app_assoc.
  - intros r w st Hw [x Hx]. destruct r, w; try discriminate; eauto.
  - intros r w st d s st' H.
    destruct r, w; simpl in H; try discriminate.
    + destruct (await_settings pending); [destruct (fsPath _)|]; discriminate.
    + destruct r; [|discriminate]. injection H as <- <- <-.
      split; [reflexivity|]. do 3 eexists. simpl. by rewrite <- app_assoc.
    + destruct r; discriminate.
    + destruct r; discriminate.
  - intros r w st d s f st' H.
    destruct r, w; simpl in H; try discriminate.
    + destruct (await_settings pending); [destruct (fsPath _)|]; discriminate.
    + destruct r; discriminate.
    + destruct r; [|discriminate]. by injection H as <- <- <- _.
    + destruct r; discriminate.
  - intros d st. unfold validatePerlDocument.
    destruct (getDocumentSettings (uri d) st). eauto.
  - intros textDocument i st settings filePath folders diagPerl diagCritic Hs Hp Hf Hc Hl.
    destruct (getDocumentSettings_effects (uri textDocument) st) as (es & Hes & Hpub).
    exists (effects st ++ es ++ [GetWorkspaceFolders]). eexists.
    split; [|split; [|split]].
    + rewrite (validation_run_effects textDocument i st settings filePath folders
                 diagPerl diagCritic Hs Hp Hf Hc Hl), Hes.
      rewrite <- !app_assoc. simpl. reflexivity.
    + rewrite (dispatched_fulfilled textDocument i st settings filePath folders Hs Hp Hf).
      simpl. rewrite Hes, <- !app_assoc. reflexivity.
    + rewrite drop_app_length. unfold publishes in *.
      rewrite omap_app, Hpub. reflexivity.
    + reflexivity.
Qed.

(** *** The store of critic diagnostics *)


(** *** What a run leaves alone *)

(** The stretches after an [await] touch neither the capability flags, nor
    the settings, nor the documents, nor the request counter. *)
Lemma resume_settings_frame (r r' : Run) (w : Wakeup) (st st' : Server) :
  resume r w st = Some (r', st') →
  hasConfigurationCapability st' = hasConfigurationCapability st ∧
  globalSettings st' = globalSettings st ∧
  documentSettings st' = documentSettings st ∧
  nextRequest st' = nextRequest st ∧
  documents st' = documents st.
Proof.
  destruct r, w; simpl; try discriminate.
  - destruct (await_settings pending); [destruct (fsPath _)|]; intros [= _ <-]; done.
  - destruct r; intros [= _ <-]; done.
  - destruct r; intros [= _ <-]; done.
  - destruct r; intros [= _ <-]; done.
Qed.

Lemma wake_settings_frame (w : Wakeup) (rs : Run * Server) :
  hasConfigurationCapability (wake w rs).2 = hasConfigurationCapability rs.2 ∧
  globalSettings (wake w rs).2 = globalSettings rs.2 ∧
  documentSettings (wake w rs).2 = documentSettings rs.2 ∧
  nextRequest (wake w rs).2 = nextRequest rs.2 ∧
  documents (wake w rs).2 = documents rs.2.
Proof.
  unfold wake. destruct (resume rs.1 w rs.2) as [[r' st']|] eqn:E; simpl; [|done].
  by apply (resume_settings_frame _ _ _ _ _ E).
Qed.

Lemma validation_run_settings_frame (textDocument : TextDocument) (i : RunInputs)
    (st : Server) :
  let st0 := (getDocumentSettings (uri textDocument) st).2 in
  let st' := (validation_run textDocument i st).2 in
  hasConfigurationCapability st' = hasConfigurationCapability st0 ∧
  globalSettings st' = globalSettings st0 ∧
  documentSettings st' = documentSettings st0 ∧
  nextRequest st' = nextRequest st0 ∧
  documents st' = documents st0.
Proof.
  unfold validation_run, stage1, dispatched, validatePerlDocument.
  destruct (getDocumentSettings (uri textDocument) st) as [p st0]. simpl.
  repeat split; repeat (etrans; [apply wake_settings_frame|]); done.
Qed.

(** The promise [getDocumentSettings] returns depends on the settings state
    alone. *)
Lemma getDocumentSettings_ext (resource : string) (st st' : Server) :
  hasConfigurationCapability st' = hasConfigurationCapability st →
  globalSettings st' = globalSettings st →
  documentSettings st' = documentSettings st →
  nextRequest st' = nextRequest st →
  (getDocumentSettings resource st').1 = (getDocumentSettings resource st).1.
Proof.
  unfold getDocumentSettings. intros -> -> -> ->.
  destruct (hasConfigurationCapability st); simpl; [|done].
  by destruct (documentSettings st !! resource).
Qed.

(** A second run of the same document right after the first awaits the same
    settings promise. *)
Lemma validation_run_settings_again (textDocument : TextDocument) (i : RunInputs)
    (st : Server) :
  (getDocumentSettings (uri textDocument) (validation_run textDocument i st).2).1
    = (getDocumentSettings (uri textDocument) st).1.
Proof.
  destruct (validation_run_settings_frame textDocument i st) as (Hc & Hg & Hm & Hn & _).
  rewrite (getDocumentSettings_ext _ _ _ Hc Hg Hm Hn).
  by rewrite getDocumentSettings_again.
Qed.

(** *** Failing analyses *)

(** A rejected analysis promise ends the run where it is awaited: nothing
    in [validatePerlDocument] catches it. *)
Lemma rejection_ends_run (textDocument : TextDocument) (start now : Z)
    (diagPerl : list Diagnostic) (e : JsError) (st : Server) :
  resume (AwaitCompile textDocument start) (CompileSettled (Rejected e) now) st
    = Some (Threw textDocument e, st) ∧
  resume (AwaitCritic textDocument start diagPerl) (CriticSettled (Rejected e) now) st
    = Some (Threw textDocument e, st).
Proof. split; reflexivity. Qed.

Lemma dispatched_publishes (textDocument : TextDocument) (i : RunInputs) (st : Server)
    (settings : NavigatorSettings) (filePath : string)
    (folders : option (list WorkspaceFolder)) :
  await_settings (getDocumentSettings (uri textDocument) st).1 = Fulfilled settings →
  fsPath (uri textDocument) = inr filePath →
  workspace_folders i = Fulfilled folders →
  publishes (effects_since st (dispatched textDocument i st).2) = [].
Proof.
  intros Hs Hp Hf.
  destruct (getDocumentSettings_effects (uri textDocument) st) as (es & Hes & Hpub).
  rewrite (dispatched_fulfilled textDocument i st settings filePath folders Hs Hp Hf).
  erewrite effects_since_app; last first.
  { simpl. rewrite Hes, <- !app_assoc. reflexivity. }
  unfold publishes in *. rewrite omap_app, Hpub. reflexivity.
Qed.

Lemma stage1_publishes (textDocument : TextDocument) (i : RunInputs) (st : Server)
    (settings : NavigatorSettings) (filePath : string)
    (folders : option (list WorkspaceFolder)) (diagPerl : list Diagnostic) :
  await_settings (getDocumentSettings (uri textDocument) st).1 = Fulfilled settings →
  fsPath (uri textDocument) = inr filePath →
  workspace_folders i = Fulfilled folders →
  compile_result i = Fulfilled diagPerl →
  publishes (effects_since st (stage1 textDocument i st).2)
    = [(uri textDocument,
        match documentDiags st !! uri textDocument with
        | Some allDiags => diagPerl ++ allDiags
        | None => diagPerl
        end)].
Proof.
  intros Hs Hp Hf Hc.
  destruct (getDocumentSettings_effects (uri textDocument) st) as (es & Hes & Hpub).
  rewrite (stage1_fulfilled textDocument i st settings filePath folders diagPerl
             Hs Hp Hf Hc).
  rewrite (dispatched_fulfilled textDocument i st settings filePath folders Hs Hp Hf).
  erewrite effects_since_app; last first.
  { simpl. rewrite Hes, <- !app_assoc. reflexivity. }
  unfold publishes in *. rewrite omap_app, Hpub. reflexivity.
Qed.

(** C6, as the code has it.  Take a run that gets as far as dispatch: its
    settings arrive, its URI decodes, the workspace folders arrive.  What it
    publishes is decided by how the two analysis promises settle.  Both
    fulfilled, with whatever lists (an analysis that failed inside and
    answered with an empty or a synthetic list included): the run returns,
    publishes stage 1 and stage 2, stage 2 being the fast list followed by
    the lint list, each intact, and the store keeps the lint list.
    perlcompile's promise rejected: the run ends with that error and
    publishes nothing, whatever perlcritic answered; the store is as it was.
    perlcompile's fulfilled and perlcritic's rejected: the run ends with that
    error after stage 1; there is no stage 2 and the store is as it was. *)
Theorem publishes_by_analysis_outcome (textDocument : TextDocument) (i : RunInputs)
    (st : Server) (settings : NavigatorSettings) (filePath : string)
    (folders : option (list WorkspaceFolder)) :
  await_settings (getDocumentSettings (uri textDocument) st).1 = Fulfilled settings →
  fsPath (uri textDocument) = inr filePath →
  workspace_folders i = Fulfilled folders →
  (∀ diagPerl diagCritic,
     compile_result i = Fulfilled diagPerl →
     critic_result i = Fulfilled diagCritic →
     ∃ st' payload1,
       validation_run textDocument i st = (Returned textDocument, st') ∧
       publishes (effects_since st st')
         = [(uri textDocument, payload1); (uri textDocument, diagPerl ++ diagCritic)] ∧
       take (length diagPerl) payload1 = diagPerl ∧
       (∀ retained, documentDiags st !! uri textDocument = Some retained →
                    payload1 = diagPerl ++ retained) ∧
       (documentDiags st !! uri textDocument = None → payload1 = diagPerl) ∧
       documentDiags st' !! uri textDocument = Some diagCritic) ∧
  (∀ e,
     compile_result i = Rejected e →
     ∃ st',
       validation_run textDocument i st = (Threw textDocument e, st') ∧
       publishes (effects_since st st') = [] ∧
       documentDiags st' = documentDiags st) ∧
  (∀ diagPerl e,
     compile_result i = Fulfilled diagPerl →
     critic_result i = Rejected e →
     ∃ st' payload1,
       validation_run textDocument i st = (Threw textDocument e, st') ∧
       publishes (effects_since st st') = [(uri textDocument, payload1)] ∧
       take (length diagPerl) payload1 = diagPerl ∧
       documentDiags st' = documentDiags st).
Proof.
  intros Hs Hp Hf.
  assert (Htake : ∀ diagPerl : list Diagnostic,
            take (length diagPerl)
              match documentDiags st !! uri textDocument with
              | Some allDiags => diagPerl ++ allDiags
              | None => diagPerl
              end = diagPerl).
  { intros diagPerl. destruct (documentDiags st !! uri textDocument).
    - by rewrite take_app_length.
    - by rewrite firstn_all. }
  split; [|split].
  - intros diagPerl diagCritic Hc Hl.
    pose proof (validation_run_fulfilled textDocument i st settings filePath folders
                  diagPerl diagCritic Hs Hp Hf Hc Hl) as Hrun.
    pose proof (validation_run_publishes textDocument i st settings filePath folders
                  diagPerl diagCritic Hs Hp Hf Hc Hl) as Hpub.
    rewrite Hrun in Hpub. eexists _, _.
    split; [exact Hrun|]. split; [exact Hpub|]. split; [apply Htake|].
    split; [by intros retained ->|]. split; [by intros ->|].
    simpl. apply lookup_insert_eq.
  - intros e Hc.
    exists (dispatched textDocument i st).2. split; [|split].
    + unfold validation_run, stage1.
      rewrite (dispatched_fulfilled textDocument i st settings filePath folders
                 Hs Hp Hf).
      unfold wake. simpl. rewrite Hc. reflexivity.
    + by apply (dispatched_publishes textDocument i st settings filePath folders).
    + apply dispatched_documentDiags.
  - intros diagPerl e Hc Hl.
    exists (stage1 textDocument i st).2. eexists. split; [|split; [|split]].
    + unfold validation_run.
      rewrite (stage1_fulfilled textDocument i st settings filePath folders diagPerl
                 Hs Hp Hf Hc).
      unfold wake. simpl. rewrite Hl. reflexivity.
    + by apply (stage1_publishes textDocument i st settings filePath folders diagPerl).
    + apply Htake.
    + rewrite (stage1_fulfilled textDocument i st settings filePath folders diagPerl
                 Hs Hp Hf Hc). simpl.
      apply dispatched_documentDiags.
Qed.

(** *** Two runs in a row *)

(** C8. Run a document whose URI decodes twice in a row, with nothing in
    between, the settings and the workspace folders arriving, the fast check
    answering [diagPerl] and the lint check [diagCritic] both times.
    The last publish of each run, its stage 2, carries the same list:
    [diagPerl] followed by [diagCritic]. *)
Theorem consecutive_runs_same_stage2 (textDocument : TextDocument) (i1 i2 : RunInputs)
    (st : Server) (settings : NavigatorSettings) (filePath : string)
    (folders1 folders2 : option (list WorkspaceFolder))
    (diagPerl diagCritic : list Diagnostic) :
  await_settings (getDocumentSettings (uri textDocument) st).1 = Fulfilled settings →
  fsPath (uri textDocument) = inr filePath →
  workspace_folders i1 = Fulfilled folders1 →
  workspace_folders i2 = Fulfilled folders2 →
  compile_result i1 = Fulfilled diagPerl →
  compile_result i2 = Fulfilled diagPerl →
  critic_result i1 = Fulfilled diagCritic →
  critic_result i2 = Fulfilled diagCritic →
  let st1 := (validation_run textDocument i1 st).2 in
  let st2 := (validation_run textDocument i2 st1).2 in
  (validation_run textDocument i1 st).1 = Returned textDocument ∧
  (validation_run textDocument i2 st1).1 = Returned textDocument ∧
  last (publishes (effects_since st st1)) = Some (uri textDocument, diagPerl ++ diagCritic) ∧
  last (publishes (effects_since st1 st2)) = Some (uri textDocument, diagPerl ++ diagCritic) ∧
  length (publishes (effects_since st st1)) = 2 ∧
  length (publishes (effects_since st1 st2)) = 2.
Proof.
  intros Hs Hp Hf1 Hf2 Hc1 Hc2 Hl1 Hl2 st1 st2.
  assert (Hs2 : await_settings (getDocumentSettings (uri textDocument) st1).1
                = Fulfilled settings).
  { subst st1. by rewrite validation_run_settings_again. }
  subst st2.
  rewrite (validation_run_publishes textDocument i2 st1 settings filePath folders2
             diagPerl diagCritic Hs2 Hp Hf2 Hc2 Hl2).
  rewrite (validation_run_fulfilled textDocument i2 st1 settings filePath folders2
             diagPerl diagCritic Hs2 Hp Hf2 Hc2 Hl2).
  subst st1.
  rewrite (validation_run_publishes textDocument i1 st settings filePath folders1
             diagPerl diagCritic Hs Hp Hf1 Hc1 Hl1).
  rewrite (validation_run_fulfilled textDocument i1 st settings filePath folders1
             diagPerl diagCritic Hs Hp Hf1 Hc1 Hl1).
  done.
Qed.

(** *** Configuration changes *)

Lemma forEach_started (all : list TextDocument) (st : Server) :
  Forall2 started_for (forEach_validatePerlDocument all st).1 all.
Proof.
  revert st. induction all as [|d all IH]; intros st; simpl; [constructor|].
  unfold validatePerlDocument.
  destruct (getDocumentSettings (uri d) st) as [p st1].
  specialize (IH st1).
  destruct (forEach_validatePerlDocument all st1) as [rs st2]. simpl in *.
  constructor; [by exists p|done].
Qed.

(** Without scoped requests the runs all await the global settings and the
    state stays as it is. *)
Lemma forEach_global (all : list TextDocument) (st : Server) :
  hasConfigurationCapability st = false →
  forEach_validatePerlDocument all st
    = (map (λ d, AwaitSettings d (PromiseResolve (globalSettings st))) all, st).
Proof.
  intros Hcap. induction all as [|d all IH]; simpl; [done|].
  unfold validatePerlDocument.
  rewrite (getDocumentSettings_global (uri d) st Hcap), IH. reflexivity.
Qed.

Lemma getDocumentSettings_requests_from (lo : nat) (resource : string) (st : Server) :
  hasConfigurationCapability st = true →
  lo ≤ nextRequest st →
  requests_from lo st →
  requests_from lo (getDocumentSettings resource st).2 ∧
  hasConfigurationCapability (getDocumentSettings resource st).2 = true ∧
  nextRequest st ≤ nextRequest (getDocumentSettings resource st).2.
Proof.
  intros Hcap Hlo Hinv.
  destruct (documentSettings st !! resource) as [p|] eqn:Hget.
  - rewrite (getDocumentSettings_cached resource st p Hcap Hget). done.
  - destruct (getDocumentSettings_request resource st Hcap Hget)
      as (st' & -> & Hcap' & _ & Hm & _ & _ & Hn & _). simpl.
    split; [|split; [done|lia]].
    intros u q. rewrite Hm, Hn. intros Hu.
    destruct (decide (resource = u)) as [->|Hne].
    + rewrite lookup_insert_eq in Hu. injection Hu as <-.
      eexists. split; [reflexivity|lia].
    + rewrite lookup_insert_ne in Hu by done.
      destruct (Hinv u q Hu) as (n & -> & ? & ?).
      exists n. split; [reflexivity|lia].
Qed.

Lemma forEach_requests_from (lo : nat) (all : list TextDocument) (st : Server) :
  hasConfigurationCapability st = true →
  lo ≤ nextRequest st →
  requests_from lo st →
  requests_from lo (forEach_validatePerlDocument all st).2.
Proof.
  revert st. induction all as [|d all IH]; intros st Hcap Hlo Hinv; simpl; [done|].
  unfold validatePerlDocument.
  destruct (getDocumentSettings_requests_from lo (uri d) st Hcap Hlo Hinv)
    as (Hinv1 & Hcap1 & Hn1).
  destruct (getDocumentSettings (uri d) st) as [p st1]. simpl in *.
  assert (Hlo1 : lo ≤ nextRequest st1) by lia.
  specialize (IH st1 Hcap1 Hlo1 Hinv1).
  by destruct (forEach_validatePerlDocument all st1) as [rs st2].
Qed.

(** What [onDidChangeConfiguration] does whenever it gets as far as
    revalidating: with scoped requests, it empties the cache and then starts
    one run per open document, so whatever the cache holds afterwards was
    requested after the change; without them, it replaces the global
    settings by the payload's section, or by the defaults when the section
    is missing, and starts one run per open document.  It gets that far
    with scoped requests, and without them when the payload's [settings] can
    be read. *)
Lemma configuration_change_revalidates (change : DidChangeConfigurationParams)
    (st : Server) :
  (hasConfigurationCapability st = true →
     ∃ rs st',
       onDidChangeConfiguration change st = inr (rs, st') ∧
       (rs, st') = forEach_validatePerlDocument (documents st)
                     (set_documentSettings ∅ st) ∧
       documentSettings (set_documentSettings ∅ st) = ∅ ∧
       requests_from (nextRequest st) st' ∧
       Forall2 started_for rs (documents st) ∧
       length rs = length (documents st)) ∧
  (∀ perlnavigator,
     hasConfigurationCapability st = false →
     settings change = SettingsObject perlnavigator →
     ∃ rs st',
       onDidChangeConfiguration change st = inr (rs, st') ∧
       (∀ section, perlnavigator = Some section → globalSettings st' = section) ∧
       (perlnavigator = None → globalSettings st' = defaultSettings) ∧
       Forall2 started_for rs (documents st) ∧
       length rs = length (documents st)).
Proof.
  split.
  - intros Hcap. unfold onDidChangeConfiguration. rewrite Hcap.
    pose proof (forEach_started (documents st) (set_documentSettings ∅ st)) as Hst.
    pose proof (forEach_requests_from (nextRequest st) (documents st)
                  (set_documentSettings ∅ st) Hcap (le_n _)) as Hreq.
    simpl in *.
    destruct (forEach_validatePerlDocument (documents st) (set_documentSettings ∅ st))
      as [rs st'].
    exists rs, st'. repeat split; auto.
    + apply Hreq. intros u p Hu. simpl in Hu. by rewrite lookup_empty in Hu.
    + by apply Forall2_length in Hst.
  - intros perlnavigator Hcap Hpayload. unfold onDidChangeConfiguration.
    rewrite Hcap, Hpayload.
    set (st1 := set_globalSettings (default defaultSettings perlnavigator) st).
    pose proof (forEach_started (documents st1) st1) as Hst.
    rewrite (forEach_global (documents st1) st1 Hcap) in *.
    eexists _, st1. split; [reflexivity|]. simpl in *.
    repeat split; auto.
    + by intros section ->.
    + by intros ->.
    + by apply Forall2_length in Hst.
Qed.

(** *** A failed request stays in the cache *)

Lemma forEach_capability (all : list TextDocument) (st : Server) :
  hasConfigurationCapability (forEach_validatePerlDocument all st).2
    = hasConfigurationCapability st.
Proof.
  revert st. induction all as [|d all IH]; intros st; simpl; [done|].
  unfold validatePerlDocument.
  pose proof (getDocumentSettings_frame (uri d) st) as (Hc & _).
  destruct (getDocumentSettings (uri d) st) as [p st1]. simpl in *.
  specialize (IH st1).
  destruct (forEach_validatePerlDocument all st1) as [rs st2]. simpl in *.
  congruence.
Qed.

(** Once initialized, the server keeps to scoped requests or to the global
    settings: no event changes the flag. *)
Lemma deliver_capability (ev : Event) (sys : System) :
  hasConfigurationCapability (server (deliver ev sys))
    = hasConfigurationCapability (server sys).
Proof.
  destruct ev as [d|d|d|change| |k w]; simpl; try done.
  - unfold onDidOpen, validatePerlDocument.
    pose proof (getDocumentSettings_frame (uri d)
                  (set_documents (documents_set d (documents (server sys)))
                     (server sys))) as (Hc & _).
    by destruct (getDocumentSettings (uri d) _).
  - unfold onDidSave, validatePerlDocument.
    pose proof (getDocumentSettings_frame (uri d) (server sys)) as (Hc & _).
    by destruct (getDocumentSettings (uri d) _).
  - unfold onDidChangeConfiguration.
    destruct (hasConfigurationCapability (server sys)) eqn:Hcap.
    + pose proof (forEach_capability (documents (server sys))
                    (set_documentSettings ∅ (server sys))) as H.
      destruct (forEach_validatePerlDocument _ _) as [rs st']. simpl in *.
      congruence.
    + destruct (settings change) as [|perlnavigator]; [done|].
      pose proof (forEach_capability (documents (server sys))
                    (set_globalSettings (default defaultSettings perlnavigator)
                       (server sys))) as H.
      destruct (forEach_validatePerlDocument _ _) as [rs st']. simpl in *.
      congruence.
  - destruct (runs sys !! k) as [r|]; [|done].
    destruct (resume r w (server sys)) as [[r' st1]|] eqn:E; [|done]. simpl.
    by destruct (resume_settings_frame _ _ _ _ _ E) as (Hc & _).
Qed.

Lemma getDocumentSettings_keeps_cached (resource u : string) (n : nat) (st : Server) :
  cached_request resource n st →
  cached_request resource n (getDocumentSettings u st).2.
Proof.
  intros (Hcap & Hget & Hn).
  destruct (documentSettings st !! u) as [p|] eqn:Hu.
  - by rewrite (getDocumentSettings_cached u st p Hcap Hu).
  - destruct (getDocumentSettings_request u st Hcap Hu)
      as (st' & -> & Hcap' & _ & Hm & _ & _ & Hn' & _). simpl.
    split; [done|]. split; [|lia].
    rewrite Hm, lookup_insert_ne; [done|]. by intros ->; rewrite Hget in Hu.
Qed.

Lemma deliver_keeps_cached (resource : string) (n : nat) (ev : Event) (sys : System) :
  removes_settings resource ev = false →
  cached_request resource n (server sys) →
  cached_request resource n (server (deliver ev sys)).
Proof.
  intros Hev Hinv. destruct ev as [d|d|d|change| |k w]; simpl in *.
  - unfold onDidOpen, validatePerlDocument.
    pose proof (getDocumentSettings_keeps_cached resource (uri d) n
                  (set_documents (documents_set d (documents (server sys))) (server sys))
                  Hinv) as H.
    by destruct (getDocumentSettings (uri d) _).
  - unfold onDidSave, validatePerlDocument.
    pose proof (getDocumentSettings_keeps_cached resource (uri d) n (server sys) Hinv) as H.
    by destruct (getDocumentSettings (uri d) _).
  - destruct Hinv as (Hcap & Hget & Hn). apply bool_decide_eq_false in Hev.
    split; [done|]. split; [|done]. simpl. by rewrite lookup_delete_ne.
  - discriminate.
  - exact Hinv.
  - destruct (runs sys !! k) as [r|]; [|done].
    destruct (resume r w (server sys)) as [[r' st1]|] eqn:E; [|done]. simpl.
    destruct (resume_settings_frame _ _ _ _ _ E) as (Hc & _ & Hm & Hq & _).
    destruct Hinv as (Hcap & Hget & Hn).
    unfold cached_request. by rewrite Hc, Hm, Hq.
Qed.

Lemma deliver_all_keeps_cached (resource : string) (n : nat) (evs : list Event)
    (sys : System) :
  forallb (λ ev, negb (removes_settings resource ev)) evs = true →
  cached_request resource n (server sys) →
  cached_request resource n (server (deliver_all evs sys)).
Proof.
  revert sys. induction evs as [|ev evs IH]; intros sys Hevs Hinv; simpl in *; [done|].
  apply andb_prop in Hevs as [Hev Hevs]. apply negb_true_iff in Hev.
  apply IH; [done|]. by apply deliver_keeps_cached.
Qed.

(** The two events that remove the entry do remove it. *)
Lemma deliver_removes_cached (resource : string) (n : nat) (ev : Event) (sys : System) :
  removes_settings resource ev = true →
  cached_request resource n (server sys) →
  documentSettings (server (deliver ev sys)) !! resource
    ≠ Some (ConfigurationRequest n).
Proof.
  intros Hev (Hcap & Hget & Hn). destruct ev as [d|d|d|change| |k w]; try discriminate.
  - simpl in *. apply bool_decide_eq_true in Hev as <-.
    by rewrite lookup_delete_eq.
  - simpl.
    destruct (configuration_change_revalidates change (server sys)) as [Hscoped _].
    destruct (Hscoped Hcap) as (rs & st' & -> & _ & _ & Hreq & _). simpl.
    intros Hstill. destruct (Hreq _ _ Hstill) as (k & [= <-] & Hk & _). lia.
Qed.

(** C9. With scoped requests, let the first call of [getDocumentSettings]
    for a document issue a request that the client fails.  The rejected
    promise is then the cache's entry for the document.  After any events
    other than a configuration change or the closing of that document
    (opening, saving and closing other documents, saving this one, any run
    moving on), a call for the document returns that same promise, still
    rejected with the same error, and changes nothing: no request is sent.
    A configuration change or the closing of the document removes the
    entry; closing leaves none. *)
Theorem failed_request_stays_cached (resource : string) (sys : System) (e : JsError) :
  hasConfigurationCapability (server sys) = true →
  documentSettings (server sys) !! resource = None →
  client_reply (nextRequest (server sys)) = Rejected e →
  let p := (getDocumentSettings resource (server sys)).1 in
  let sys1 := {| server := (getDocumentSettings resource (server sys)).2;
                 runs := runs sys |} in
  p = ConfigurationRequest (nextRequest (server sys)) ∧
  await_settings p = Rejected e ∧
  documentSettings (server sys1) !! resource = Some p ∧
  ∀ evs, forallb (λ ev, negb (removes_settings resource ev)) evs = true →
    let sys2 := deliver_all evs sys1 in
    getDocumentSettings resource (server sys2) = (p, server sys2) ∧
    await_settings (getDocumentSettings resource (server sys2)).1 = Rejected e ∧
    effects (getDocumentSettings resource (server sys2)).2 = effects (server sys2) ∧
    (∀ ev, removes_settings resource ev = true →
           documentSettings (server (deliver ev sys2)) !! resource ≠ Some p) ∧
    (∀ d, uri d = resource →
          documentSettings (server (deliver (DidClose d) sys2)) !! resource = None).
Proof.
  intros Hcap Hmiss Hfail.
  destruct (getDocumentSettings_request resource (server sys) Hcap Hmiss)
    as (st1 & Hcall & Hcap1 & _ & Hm & _ & _ & Hn & _).
  rewrite Hcall. simpl.
  assert (Hinv : cached_request resource (nextRequest (server sys)) st1).
  { split; [done|]. split; [|lia]. rewrite Hm. apply lookup_insert_eq. }
  split; [done|]. split; [done|]. split; [apply Hinv|].
  intros evs Hevs.
  pose proof (deliver_all_keeps_cached resource _ evs
                {| server := st1; runs := runs sys |} Hevs Hinv) as Hinv2.
  set (sys2 := deliver_all evs {| server := st1; runs := runs sys |}) in *.
  destruct Hinv2 as (Hcap2 & Hget2 & Hn2).
  rewrite (getDocumentSettings_cached resource (server sys2) _ Hcap2 Hget2). simpl.
  split; [done|]. split; [done|]. split; [done|]. split.
  - intros ev Hev. by apply deliver_removes_cached.
  - intros d <-. simpl. apply lookup_delete_eq.
Qed.

(** * Further properties *)

(** *** Initialization, continued *)

(** X1. What the server registers after the handshake follows the client's
    announcement alone: it registers for configuration changes exactly when
    the client announced [workspace.configuration], and listens for (and
    advertises) workspace folders exactly when the client announced
    [workspace.workspaceFolders].  A client that says nothing under
    [workspace] gets neither.  The handshake publishes nothing and leaves the
    settings and both caches alone. *)
Theorem initialization_follows_client (capabilities : ClientCapabilities) (st : Server) :
  let st' := onInitialized (onInitialize capabilities st).2 in
  (effects st' = effects st
     ++ (if hasConfigurationCapability st'
         then [ClientRegisterDidChangeConfiguration] else [])
     ++ (if hasWorkspaceFolderCapability st'
         then [OnDidChangeWorkspaceFolders] else [])) ∧
  (hasConfigurationCapability st' = true
     ↔ ∃ w, workspace capabilities = Some w ∧ configuration w = Some true) ∧
  (hasWorkspaceFolderCapability st' = true
     ↔ ∃ w, workspace capabilities = Some w ∧ workspaceFolders w = Some true) ∧
  (workspaceFolders_supported (onInitialize capabilities st).1 = Some true
     ↔ hasWorkspaceFolderCapability st' = true) ∧
  (workspace capabilities = None → effects st' = effects st) ∧
  globalSettings st' = globalSettings st ∧
  documentSettings st' = documentSettings st ∧
  documentDiags st' = documentDiags st.
Proof.
  destruct capabilities as [[[c wf]|] td]; unfold onInitialized, onInitialize; simpl.
  - destruct c as [[|]|], wf as [[|]|]; simpl;
      (split; [by rewrite <- ?app_assoc, ?app_nil_r|]);
      repeat split; try done; try (by intros (w & [= <-] & ?));
      try (intros _; eexists; split; reflexivity).
  - split; [by rewrite app_nil_r|]. repeat split; try done; by intros (w & ? & _).
Qed.

(** *** The settings cache, continued *)

(** X2. Asking twice for the settings of a document is asking once: the
    second call returns the promise of the first and changes nothing.  The
    two calls together send one configuration request, scoped to the
    document, when scoped requests are supported and nothing was cached, and
    none otherwise; the entries of other documents stay as they were. *)
Theorem settings_requested_once (resource : string) (st : Server) :
  let st1 := (getDocumentSettings resource st).2 in
  getDocumentSettings resource st1 = ((getDocumentSettings resource st).1, st1) ∧
  (hasConfigurationCapability st = true → documentSettings st !! resource = None →
     effects_since st (getDocumentSettings resource st1).2
       = [GetConfiguration (nextRequest st) resource "perlnavigator"%string]) ∧
  (hasConfigurationCapability st = false ∨ is_Some (documentSettings st !! resource) →
     (getDocumentSettings resource st1).2 = st) ∧
  (∀ other, other ≠ resource →
     documentSettings st1 !! other = documentSettings st !! other).
Proof.
  simpl. pose proof (getDocumentSettings_again resource st) as Hagain.
  split; [exact Hagain|]. rewrite Hagain. simpl. split; [|split].
  - intros Hcap Hmiss.
    destruct (getDocumentSettings_request resource st Hcap Hmiss)
      as (st' & -> & _ & _ & _ & _ & _ & _ & Heff). simpl.
    by apply effects_since_app.
  - intros [Hcap|[p Hp]].
    + by rewrite (getDocumentSettings_global resource st Hcap).
    + destruct (hasConfigurationCapability st) eqn:Hcap.
      * by rewrite (getDocumentSettings_cached resource st p Hcap Hp).
      * by rewrite (getDocumentSettings_global resource st Hcap).
  - intros other Hne.
    destruct (hasConfigurationCapability st) eqn:Hcap.
    + destruct (documentSettings st !! resource) as [p|] eqn:Hget.
      * by rewrite (getDocumentSettings_cached resource st p Hcap Hget).
      * destruct (getDocumentSettings_request resource st Hcap Hget)
          as (st' & -> & _ & _ & Hm & _). simpl.
        rewrite Hm. by apply lookup_insert_ne.
    + by rewrite (getDocumentSettings_global resource st Hcap).
Qed.

(** *** What a run may send *)

Lemma resume_budget (r r' : Run) (w : Wakeup) (st st' : Server) :
  resume r w st = Some (r', st') →
  ∃ es, effects st' = effects st ++ es ∧
        Forall (λ p, p.1 = uri (run_document r)) (publishes es) ∧
        length (publishes es) + publishes_left r' ≤ publishes_left r.
Proof.
  assert (Hnone : ∀ (s : Server) (u : string) (a b : nat), a ≤ b →
            ∃ es, effects s = effects s ++ es ∧
                  Forall (λ p : string * list Diagnostic, p.1 = u) (publishes es) ∧
                  length (publishes es) + a ≤ b).
  { intros s u a b Hab. exists []. rewrite app_nil_r. simpl.
    split; [done|]. split; [constructor|lia]. }
  destruct r, w; simpl; try discriminate.
  - destruct (await_settings pending); [destruct (fsPath _)|]; intros [= <- <-].
    + apply Hnone. simpl. lia.
    + exists [GetWorkspaceFolders]. simpl.
      split; [done|]. split; [constructor|lia].
    + apply Hnone. simpl. lia.
  - destruct r; intros [= <- <-].
    + eexists [_; _]. simpl. rewrite <- app_assoc.
      split; [reflexivity|]. split; [constructor|simpl; lia].
    + apply Hnone. simpl. lia.
  - destruct r; intros [= <- <-].
    + eexists [_; _]. simpl. rewrite <- app_assoc.
      split; [reflexivity|]. split; [by repeat constructor|simpl; lia].
    + apply Hnone. simpl. lia.
  - destruct r; intros [= <- <-].
    + eexists [_; _]. simpl. rewrite <- app_assoc.
      split; [reflexivity|]. split; [by repeat constructor|simpl; lia].
    + apply Hnone. simpl. lia.
Qed.

Lemma wake_all_budget (ws : list Wakeup) (rs : Run * Server) :
  ∃ es, effects (wake_all ws rs).2 = effects rs.2 ++ es ∧
        Forall (λ p, p.1 = uri (run_document rs.1)) (publishes es) ∧
        length (publishes es) + publishes_left (wake_all ws rs).1 ≤ publishes_left rs.1.
Proof.
  revert rs. induction ws as [|w ws IH]; intros rs; simpl.
  - exists []. rewrite app_nil_r. simpl. repeat split; [constructor|lia].
  - destruct (IH (wake w rs)) as (es2 & Heff2 & Hall2 & Hlen2).
    unfold wake in *.
    destruct (resume rs.1 w rs.2) as [[r' st']|] eqn:E; simpl in *.
    + destruct (resume_budget _ _ _ _ _ E) as (es1 & Heff1 & Hall1 & Hlen1).
      rewrite (run_document_resume _ _ _ _ _ E) in Hall2.
      exists (es1 ++ es2). rewrite Heff2, Heff1, <- app_assoc.
      unfold publishes in *. rewrite omap_app, length_app.
      repeat split; [by apply Forall_app|lia].
    + exists es2. done.
Qed.

(** X3. Whatever wake-ups reach a run, in whatever order and however often,
    the run calls [sendDiagnostics] at most twice from its call to its end,
    and only for its own document. *)
Theorem run_publishes_own_document_twice_at_most (textDocument : TextDocument)
    (st : Server) (ws : list Wakeup) :
  let st' := (wake_all ws (validatePerlDocument textDocument st)).2 in
  length (publishes (effects_since st st')) ≤ 2 ∧
  Forall (λ p, p.1 = uri textDocument) (publishes (effects_since st st')).
Proof.
  simpl.
  destruct (wake_all_budget ws (validatePerlDocument textDocument st))
    as (es & Heff & Hall & Hlen).
  unfold validatePerlDocument in *.
  destruct (getDocumentSettings_effects (uri textDocument) st) as (es0 & Heff0 & Hpub0).
  destruct (getDocumentSettings (uri textDocument) st) as [p st0]. simpl in *.
  rewrite Heff0, <- app_assoc in Heff.
  rewrite (effects_since_app _ _ _ Heff).
  unfold publishes in *. rewrite omap_app, Hpub0. simpl. split; [lia|done].
Qed.

(** *** Rejected promises *)

Lemma getDocumentSettings_effects_cases (resource : string) (st : Server) :
  effects (getDocumentSettings resource st).2 = effects st ∨
  effects (getDocumentSettings resource st).2
    = effects st ++ [GetConfiguration (nextRequest st) resource "perlnavigator"%string].
Proof.
  unfold getDocumentSettings.
  destruct (hasConfigurationCapability st); simpl; [|by left].
  destruct (documentSettings st !! resource); simpl; [by left|by right].
Qed.

(** X4. A run whose settings promise rejects, whose URI cannot be decoded,
    or whose request for the workspace folders fails, ends with that error
    before anything is dispatched: neither perlcompile nor perlcritic is
    started, nothing is published and the retained diagnostics stay as they
    are. *)
Theorem failure_before_dispatch_starts_nothing (textDocument : TextDocument)
    (i : RunInputs) (st : Server) (e : JsError) :
  await_settings (getDocumentSettings (uri textDocument) st).1 = Rejected e ∨
  (∃ settings,
     await_settings (getDocumentSettings (uri textDocument) st).1 = Fulfilled settings ∧
     fsPath (uri textDocument) = inl e) ∨
  (∃ settings filePath,
     await_settings (getDocumentSettings (uri textDocument) st).1 = Fulfilled settings ∧
     fsPath (uri textDocument) = inr filePath ∧
     workspace_folders i = Rejected e) →
  let rs := validation_run textDocument i st in
  rs.1 = Threw textDocument e ∧
  filter is_analysis_start (effects_since st rs.2) = [] ∧
  publishes (effects_since st rs.2) = [] ∧
  documentDiags rs.2 = documentDiags st.
Proof.
  intros Hfail. simpl.
  pose proof (getDocumentSettings_frame (uri textDocument) st) as (_ & _ & Hd & _).
  pose proof (getDocumentSettings_effects_cases (uri textDocument) st) as Heff.
  assert (Hlog : ∀ (st1 : Server) (tail : list Effect),
            effects st1 = effects (getDocumentSettings (uri textDocument) st).2 ++ tail →
            filter is_analysis_start tail = [] → publishes tail = [] →
            filter is_analysis_start (effects_since st st1) = [] ∧
            publishes (effects_since st st1) = []).
  { intros st1 tail H1 H2 H3. destruct Heff as [Heff|Heff]; rewrite Heff in H1.
    - by rewrite (effects_since_app _ _ _ H1).
    - rewrite <- app_assoc in H1. rewrite (effects_since_app _ _ _ H1).
      unfold publishes in *. rewrite filter_app, omap_app, H2, H3. done. }
  unfold validation_run, stage1, dispatched, wake, validatePerlDocument.
  destruct (getDocumentSettings (uri textDocument) st) as [p st0]. simpl in *.
  destruct Hfail as [Hs|[(settings & Hs & Hp)|(settings & filePath & Hs & Hp & Hf)]];
    rewrite Hs; simpl.
  - destruct (Hlog st0 []) as [H1 H2]; [by rewrite app_nil_r|done..|]. done.
  - rewrite Hp. simpl.
    destruct (Hlog st0 []) as [H1 H2]; [by rewrite app_nil_r|done..|]. done.
  - rewrite Hp. simpl. rewrite Hf. simpl.
    destruct (Hlog (emit GetWorkspaceFolders st0) [GetWorkspaceFolders])
      as [H1 H2]; [done..|]. done.
Qed.

Lemma dispatched_effects_since (textDocument : TextDocument) (i : RunInputs)
    (st : Server) (settings : NavigatorSettings) (filePath : string)
    (folders : option (list WorkspaceFolder)) :
  await_settings (getDocumentSettings (uri textDocument) st).1 = Fulfilled settings →
  fsPath (uri textDocument) = inr filePath →
  workspace_folders i = Fulfilled folders →
  ∃ es0, publishes es0 = [] ∧ filter is_analysis_start es0 = [] ∧
    effects (dispatched textDocument i st).2
      = effects st ++ es0 ++ [PerlCompile filePath folders settings;
                              PerlCritic filePath folders settings].
Proof.
  intros Hs Hp Hf.
  rewrite (dispatched_fulfilled textDocument i st settings filePath folders Hs Hp Hf). simpl.
  destruct (getDocumentSettings_effects_cases (uri textDocument) st) as [Heff|Heff];
    rewrite Heff.
  - exists [GetWorkspaceFolders]. repeat split. by rewrite <- !app_assoc.
  - exists [GetConfiguration (nextRequest st) (uri textDocument) "perlnavigator"%string;
            GetWorkspaceFolders].
    repeat split. by rewrite <- !app_assoc.
Qed.

(** X5. In a run that gets as far as dispatch (its settings arrive, its URI
    decodes, the workspace folders arrive), when perlcompile's promise
    rejects, the run ends with that error at
    [await pCompile]: it publishes nothing at all, not even the retained
    critic diagnostics, and never looks at perlcritic's answer, although
    perlcritic was started; the store is left as it was. *)
Theorem compile_rejection_publishes_nothing (textDocument : TextDocument)
    (i : RunInputs) (st : Server) (settings : NavigatorSettings) (filePath : string)
    (folders : option (list WorkspaceFolder)) (e : JsError) :
  await_settings (getDocumentSettings (uri textDocument) st).1 = Fulfilled settings →
  fsPath (uri textDocument) = inr filePath →
  workspace_folders i = Fulfilled folders →
  compile_result i = Rejected e →
  let rs := validation_run textDocument i st in
  rs.1 = Threw textDocument e ∧
  rs.2 = (dispatched textDocument i st).2 ∧
  filter is_analysis_start (effects_since st rs.2)
    = [PerlCompile filePath folders settings;
       PerlCritic filePath folders settings] ∧
  publishes (effects_since st rs.2) = [] ∧
  documentDiags rs.2 = documentDiags st.
Proof.
  intros Hs Hp Hf Hc. simpl.
  destruct (dispatched_effects_since textDocument i st settings filePath folders Hs Hp Hf)
    as (es0 & Hpub0 & Hstart0 & Heff).
  pose proof (dispatched_documentDiags textDocument i st) as Hd.
  assert (Hrun : validation_run textDocument i st
                 = (Threw textDocument e, (dispatched textDocument i st).2)).
  { unfold validation_run, stage1.
    rewrite (dispatched_fulfilled textDocument i st settings filePath folders Hs Hp Hf).
    unfold wake. simpl. rewrite Hc. reflexivity. }
  rewrite Hrun. simpl.
  split; [done|]. split; [done|].
  rewrite (effects_since_app _ _ _ Heff).
  unfold publishes in *. rewrite filter_app, omap_app, Hpub0, Hstart0.
  split; [done|]. split; [done|exact Hd].
Qed.

(** X6. In a run that gets as far as dispatch, when perlcompile answers
    and perlcritic's promise rejects, stage 1 has been published and nothing
    follows it: the run ends with that error at [await pCritic], and
    the store still holds what it held, so the next run sends the same
    retained diagnostics again. *)
Theorem critic_rejection_keeps_retained (textDocument : TextDocument)
    (i : RunInputs) (st : Server) (settings : NavigatorSettings) (filePath : string)
    (folders : option (list WorkspaceFolder)) (diagPerl : list Diagnostic)
    (e : JsError) :
  await_settings (getDocumentSettings (uri textDocument) st).1 = Fulfilled settings →
  fsPath (uri textDocument) = inr filePath →
  workspace_folders i = Fulfilled folders →
  compile_result i = Fulfilled diagPerl →
  critic_result i = Rejected e →
  let rs := validation_run textDocument i st in
  rs.1 = Threw textDocument e ∧
  documentDiags rs.2 = documentDiags st ∧
  (∀ retained, documentDiags st !! uri textDocument = Some retained →
     publishes (effects_since st rs.2) = [(uri textDocument, diagPerl ++ retained)]) ∧
  (documentDiags st !! uri textDocument = None →
     publishes (effects_since st rs.2) = [(uri textDocument, diagPerl)]).
Proof.
  intros Hs Hp Hf Hc Hl. simpl.
  destruct (dispatched_effects_since textDocument i st settings filePath folders Hs Hp Hf)
    as (es0 & Hpub0 & _ & Heff).
  pose proof (dispatched_documentDiags textDocument i st) as Hd.
  unfold validation_run.
  rewrite (stage1_fulfilled textDocument i st settings filePath folders diagPerl Hs Hp Hf Hc).
  unfold wake. simpl. rewrite Hl. simpl.
  split; [done|]. split; [exact Hd|].
  assert (Hpub : publishes (effects_since st
            (emit (SendDiagnostics (uri textDocument)
                     match documentDiags st !! uri textDocument with
                     | Some allDiags => diagPerl ++ allDiags
                     | None => diagPerl
                     end)
               (emit (ConsoleLog (CompilationTime (compile_time i - start_time i)))
                  (dispatched textDocument i st).2)))
          = [(uri textDocument,
              match documentDiags st !! uri textDocument with
              | Some allDiags => diagPerl ++ allDiags
              | None => diagPerl
              end)]).
  { erewrite effects_since_app; last first.
    { simpl. rewrite Heff, <- !app_assoc. reflexivity. }
    unfold publishes in *. rewrite !omap_app, Hpub0. reflexivity. }
  split.
  - intros retained Hr. rewrite Hr in Hpub |- *. exact Hpub.
  - intros Hr. rewrite Hr in Hpub |- *. exact Hpub.
Qed.

(** *** Closing and what it does not stop *)



(** X9. Closing a document touches that document alone: the cached
    settings and the retained diagnostics of every other document, the
    global settings and the capability flag are what they were.  A second
    close of the same document changes neither cache; it only publishes the
    empty list again. *)
Theorem close_touches_one_document (document : TextDocument) (st : Server) :
  (∀ other, other ≠ uri document →
     documentSettings (onDidClose document st) !! other = documentSettings st !! other ∧
     documentDiags (onDidClose document st) !! other = documentDiags st !! other) ∧
  globalSettings (onDidClose document st) = globalSettings st ∧
  hasConfigurationCapability (onDidClose document st) = hasConfigurationCapability st ∧
  documentSettings (onDidClose document (onDidClose document st))
    = documentSettings (onDidClose document st) ∧
  documentDiags (onDidClose document (onDidClose document st))
    = documentDiags (onDidClose document st) ∧
  publishes (effects_since st (onDidClose document (onDidClose document st)))
    = [(uri document, []); (uri document, [])].
Proof.
  split; [|split; [done|split; [done|split; [|split]]]].
  - intros other Hne. simpl. by rewrite !lookup_delete_ne.
  - simpl. apply delete_delete_eq.
  - simpl. apply delete_delete_eq.
  - rewrite (effects_since_app st _ [SendDiagnostics (uri document) [];
                                     SendDiagnostics (uri document) []]); [done|].
    simpl. by rewrite <- app_assoc.
Qed.

(** *** The store of critic diagnostics, as a whole *)

Lemma forEach_frame (all : list TextDocument) (st : Server) :
  documentDiags (forEach_validatePerlDocument all st).2 = documentDiags st ∧
  globalSettings (forEach_validatePerlDocument all st).2 = globalSettings st ∧
  ∃ es, effects (forEach_validatePerlDocument all st).2 = effects st ++ es ∧
        publishes es = [] ∧ filter is_analysis_start es = [].
Proof.
  revert st. induction all as [|d all IH]; intros st; simpl.
  - repeat split. exists []. by rewrite app_nil_r.
  - unfold validatePerlDocument.
    pose proof (getDocumentSettings_frame (uri d) st) as (_ & Hg & Hd & _).
    pose proof (getDocumentSettings_effects_cases (uri d) st) as Heff.
    destruct (getDocumentSettings (uri d) st) as [p st1]. simpl in *.
    destruct (IH st1) as (Hd2 & Hg2 & es & Heff2 & Hpub & Hstart).
    destruct (forEach_validatePerlDocument all st1) as [rs st2]. simpl in *.
    split; [congruence|]. split; [congruence|].
    destruct Heff as [Heff|Heff]; rewrite Heff in Heff2.
    + exists es. done.
    + eexists (_ :: es). rewrite Heff2, <- app_assoc.
      split; [reflexivity|]. split; [exact Hpub|].
      rewrite filter_cons. exact Hstart.
Qed.

(** X10. The entry of a document in [documentDiags] is written by two events
    only: the closing of that document, and perlcritic's diagnostics arriving
    at a run of that document.  Every other event, whatever runs are in
    flight, leaves the entry as it is: opening, saving, a configuration
    change, a change of watched files, any other step of any run, and the
    same two events for other documents. *)
Theorem store_entry_written_by_close_and_critic (u : string) (ev : Event) (sys : System) :
  writes_diags u sys ev = false →
  documentDiags (server (deliver ev sys)) !! u = documentDiags (server sys) !! u.
Proof.
  intros Hev. destruct ev as [d|d|d|change| |k w]; simpl in *.
  - unfold onDidOpen, validatePerlDocument.
    pose proof (getDocumentSettings_frame (uri d)
                  (set_documents (documents_set d (documents (server sys)))
                     (server sys))) as (_ & _ & Hd & _).
    destruct (getDocumentSettings (uri d) _). simpl in *. by rewrite Hd.
  - unfold onDidSave, validatePerlDocument.
    pose proof (getDocumentSettings_frame (uri d) (server sys)) as (_ & _ & Hd & _).
    destruct (getDocumentSettings (uri d) _). simpl in *. by rewrite Hd.
  - apply bool_decide_eq_false in Hev. by rewrite lookup_delete_ne.
  - unfold onDidChangeConfiguration.
    destruct (hasConfigurationCapability (server sys)).
    + pose proof (forEach_frame (documents (server sys))
                    (set_documentSettings ∅ (server sys))) as (Hd & _).
      destruct (forEach_validatePerlDocument _ _). simpl in *. by rewrite Hd.
    + destruct (settings change) as [|perlnavigator]; [done|].
      pose proof (forEach_frame (documents (server sys))
                    (set_globalSettings (default defaultSettings perlnavigator)
                       (server sys))) as (Hd & _).
      destruct (forEach_validatePerlDocument _ _). simpl in *. by rewrite Hd.
  - done.
  - destruct (runs sys !! k) as [r|]; [|done].
    destruct (resume r w (server sys)) as [[r' st1]|] eqn:E; [|done]. simpl.
    destruct r, w; simpl in E; try discriminate.
    + destruct (await_settings pending); [destruct (fsPath _)|];
        by injection E as <- <-.
    + destruct r; by injection E as <- <-.
    + destruct r; by injection E as <- <-.
    + destruct r; injection E as <- <-; [|done].
      apply bool_decide_eq_false in Hev. simpl. by rewrite lookup_insert_ne.
Qed.

(** X11. Two runs of one document that both wait for perlcritic: the one
    whose perlcritic answers last decides what the store retains and what
    the client sees last, whichever run was started first.  Nothing of the
    earlier answer survives in the store. *)
Theorem last_critic_wins (textDocument : TextDocument) (start1 start2 now1 now2 : Z)
    (diagPerl1 diagPerl2 diagCritic1 diagCritic2 : list Diagnostic) (st : Server) :
  let first := wake (CriticSettled (Fulfilled diagCritic1) now1)
                 (AwaitCritic textDocument start1 diagPerl1, st) in
  let second := wake (CriticSettled (Fulfilled diagCritic2) now2)
                  (AwaitCritic textDocument start2 diagPerl2, first.2) in
  documentDiags second.2 = <[uri textDocument := diagCritic2]> (documentDiags st) ∧
  publishes (effects_since st second.2)
    = [(uri textDocument, diagPerl1 ++ diagCritic1);
       (uri textDocument, diagPerl2 ++ diagCritic2)] ∧
  last (publishes (effects_since st second.2))
    = Some (uri textDocument, diagPerl2 ++ diagCritic2).
Proof.
  unfold wake. simpl. split; [apply insert_insert_eq|].
  rewrite (effects_since_app st _
             [ConsoleLog (PerlCriticTime (now1 - start1));
              SendDiagnostics (uri textDocument) (diagPerl1 ++ diagCritic1);
              ConsoleLog (PerlCriticTime (now2 - start2));
              SendDiagnostics (uri textDocument) (diagPerl2 ++ diagCritic2)]);
    [done|]. simpl. by rewrite <- !app_assoc.
Qed.


(** *** Servers without scoped requests *)

Lemma resume_effects_no_request (r r' : Run) (w : Wakeup) (st st' : Server) :
  resume r w st = Some (r', st') →
  ∃ es, effects st' = effects st ++ es ∧ filter is_configuration_request es = [].
Proof.
  destruct r, w; simpl; try discriminate.
  - destruct (await_settings pending); [destruct (fsPath _)|]; intros [= <- <-].
    + exists []. by rewrite app_nil_r.
    + by exists [GetWorkspaceFolders].
    + exists []. by rewrite app_nil_r.
  - destruct r; intros [= <- <-].
    + eexists [_; _]. simpl. by rewrite <- app_assoc.
    + exists []. by rewrite app_nil_r.
  - destruct r; intros [= <- <-].
    + eexists [_; _]. simpl. by rewrite <- app_assoc.
    + exists []. by rewrite app_nil_r.
  - destruct r; intros [= <- <-].
    + eexists [_; _]. simpl. by rewrite <- app_assoc.
    + exists []. by rewrite app_nil_r.
Qed.

Lemma deliver_unscoped (ev : Event) (sys : System) :
  hasConfigurationCapability (server sys) = false →
  nextRequest (server (deliver ev sys)) = nextRequest (server sys) ∧
  documentSettings (server (deliver ev sys)) ⊆ documentSettings (server sys) ∧
  ∃ es, effects (server (deliver ev sys)) = effects (server sys) ++ es ∧
        filter is_configuration_request es = [].
Proof.
  intros Hcap. destruct ev as [d|d|d|change| |k w]; simpl.
  - unfold onDidOpen, validatePerlDocument.
    rewrite getDocumentSettings_global by done. simpl.
    repeat split; [done|]. exists []. by rewrite app_nil_r.
  - unfold onDidSave, validatePerlDocument.
    rewrite getDocumentSettings_global by done. simpl.
    repeat split; [done|]. exists []. by rewrite app_nil_r.
  - repeat split; [apply delete_subseteq|]. by eexists [_].
  - unfold onDidChangeConfiguration. rewrite Hcap.
    destruct (settings change) as [|perlnavigator].
    + repeat split; [done|]. exists []. by rewrite app_nil_r.
    + rewrite forEach_global by done. simpl.
      repeat split; [done|]. exists []. by rewrite app_nil_r.
  - repeat split; [done|]. by eexists [_].
  - destruct (runs sys !! k) as [r|]; simpl.
    + destruct (resume r w (server sys)) as [[r' st1]|] eqn:E; simpl.
      * destruct (resume_settings_frame _ _ _ _ _ E) as (_ & _ & Hm & Hn & _).
        rewrite Hm, Hn. repeat split; [done|].
        by apply (resume_effects_no_request _ _ _ _ _ E).
      * repeat split; [done|]. exists []. by rewrite app_nil_r.
    + repeat split; [done|]. exists []. by rewrite app_nil_r.
Qed.

(** X13. A server whose client does not support scoped requests never asks
    the client for configuration, whatever events arrive and in whatever
    order, and never adds to the settings cache. *)
Theorem unscoped_server_never_requests (evs : list Event) (sys : System) :
  hasConfigurationCapability (server sys) = false →
  filter is_configuration_request
    (effects_since (server sys) (server (deliver_all evs sys))) = [] ∧
  documentSettings (server (deliver_all evs sys)) ⊆ documentSettings (server sys) ∧
  hasConfigurationCapability (server (deliver_all evs sys)) = false.
Proof.
  intros Hcap.
  cut (nextRequest (server (deliver_all evs sys)) = nextRequest (server sys) ∧
       documentSettings (server (deliver_all evs sys)) ⊆ documentSettings (server sys) ∧
       hasConfigurationCapability (server (deliver_all evs sys)) = false ∧
       ∃ es, effects (server (deliver_all evs sys)) = effects (server sys) ++ es ∧
             filter is_configuration_request es = []).
  { intros (_ & Hsub & Hcap' & es & Heff & Hes).
    by rewrite (effects_since_app _ _ _ Heff). }
  revert sys Hcap. induction evs as [|ev evs IH]; intros sys Hcap; simpl.
  - repeat split; [done..|]. exists []. by rewrite app_nil_r.
  - destruct (deliver_unscoped ev sys Hcap) as (Hn1 & Hsub1 & es1 & Heff1 & Hes1).
    assert (Hcap1 : hasConfigurationCapability (server (deliver ev sys)) = false)
      by (by rewrite deliver_capability).
    destruct (IH (deliver ev sys) Hcap1) as (Hn2 & Hsub2 & Hcap2 & es2 & Heff2 & Hes2).
    split; [congruence|]. split; [by etrans|]. split; [done|].
    exists (es1 ++ es2). rewrite Heff2, Heff1, <- app_assoc.
    split; [done|]. by rewrite filter_app, Hes1, Hes2.
Qed.

(** X14. Without scoped requests, a run that is waiting for the workspace
    folders when a configuration change arrives analyses with the settings
    from before the change: it read them from the promise
    [getDocumentSettings] had resolved with the old value, and keeps them in
    its local variable, though the analyses are started after the change.
    The runs the change itself starts await the new value. *)
Theorem run_in_flight_keeps_settings (textDocument : TextDocument)
    (perlnavigator : option NavigatorSettings) (now : Z) (filePath : string)
    (folders : option (list WorkspaceFolder)) (st : Server) :
  hasConfigurationCapability st = false →
  fsPath (uri textDocument) = inr filePath →
  let waiting := wake (SettingsSettled now) (validatePerlDocument textDocument st) in
  ∃ rs st2,
    waiting.1 = AwaitWorkspaceFolders textDocument (globalSettings st) filePath now ∧
    onDidChangeConfiguration {| settings := SettingsObject perlnavigator |} waiting.2
      = inr (rs, st2) ∧
    globalSettings st2 = default defaultSettings perlnavigator ∧
    Forall (λ r, ∃ d, r = AwaitSettings d
                          (PromiseResolve (default defaultSettings perlnavigator))) rs ∧
    effects_since st2
      (wake (WorkspaceFoldersSettled (Fulfilled folders)) (waiting.1, st2)).2
      = [PerlCompile filePath folders (globalSettings st);
         PerlCritic filePath folders (globalSettings st)].
Proof.
  intros Hcap Hp. unfold validatePerlDocument, onDidChangeConfiguration, wake.
  rewrite (getDocumentSettings_global (uri textDocument) st Hcap). simpl.
  rewrite Hp. simpl. rewrite Hcap. rewrite forEach_global by done. simpl.
  do 2 eexists. split; [reflexivity|]. split; [reflexivity|].
  simpl. split; [done|]. split.
  - apply Forall_forall. intros r Hr.
    apply list_elem_of_fmap in Hr as (d & -> & _). by exists d.
  - apply effects_since_app. simpl. by rewrite <- !app_assoc.
Qed.

(** *** Servers with scoped requests *)

(** A state whose cache has no entry that the other lacks, and whose log
    continues the other's, inherits [cache_scoped]. *)
Lemma cache_scoped_weaken (st st' : Server) (es : list Effect) :
  documentSettings st' ⊆ documentSettings st →
  effects st' = effects st ++ es →
  cache_scoped st → cache_scoped st'.
Proof.
  intros Hsub Heff Hinv u p Hu.
  destruct (Hinv u p (lookup_weaken _ _ _ _ Hu Hsub)) as (n & -> & Hin).
  exists n. split; [done|]. rewrite Heff. apply elem_of_app. by left.
Qed.

Lemma getDocumentSettings_cache_scoped (resource : string) (st : Server) :
  cache_scoped st → cache_scoped (getDocumentSettings resource st).2.
Proof.
  intros Hinv.
  destruct (hasConfigurationCapability st) eqn:Hcap.
  - destruct (documentSettings st !! resource) as [p|] eqn:Hget.
    + by rewrite (getDocumentSettings_cached resource st p Hcap Hget).
    + destruct (getDocumentSettings_request resource st Hcap Hget)
        as (st' & -> & _ & _ & Hm & _ & _ & _ & Heff). simpl.
      intros u q. rewrite Hm, Heff. intros Hu.
      destruct (decide (resource = u)) as [->|Hne].
      * rewrite lookup_insert_eq in Hu. injection Hu as <-.
        eexists. split; [reflexivity|]. apply elem_of_app. right.
        by apply list_elem_of_singleton.
      * rewrite lookup_insert_ne in Hu by done.
        destruct (Hinv u q Hu) as (n & -> & Hin).
        exists n. split; [done|]. apply elem_of_app. by left.
  - by rewrite (getDocumentSettings_global resource st Hcap).
Qed.

Lemma forEach_cache_scoped (all : list TextDocument) (st : Server) :
  cache_scoped st → cache_scoped (forEach_validatePerlDocument all st).2.
Proof.
  revert st. induction all as [|d all IH]; intros st Hinv; simpl; [done|].
  unfold validatePerlDocument.
  pose proof (getDocumentSettings_cache_scoped (uri d) st Hinv) as Hinv1.
  destruct (getDocumentSettings (uri d) st) as [p st1]. simpl in *.
  specialize (IH st1 Hinv1).
  by destruct (forEach_validatePerlDocument all st1) as [rs st2].
Qed.

Lemma deliver_cache_scoped (ev : Event) (sys : System) :
  cache_scoped (server sys) → cache_scoped (server (deliver ev sys)).
Proof.
  intros Hinv. destruct ev as [d|d|d|change| |k w]; simpl.
  - unfold onDidOpen, validatePerlDocument.
    pose proof (getDocumentSettings_cache_scoped (uri d)
                  (set_documents (documents_set d (documents (server sys)))
                     (server sys)) Hinv) as H.
    by destruct (getDocumentSettings (uri d) _).
  - unfold onDidSave, validatePerlDocument.
    pose proof (getDocumentSettings_cache_scoped (uri d) (server sys) Hinv) as H.
    by destruct (getDocumentSettings (uri d) _).
  - apply (cache_scoped_weaken (server sys) _ [SendDiagnostics (uri d) []]);
      [apply delete_subseteq|done|done].
  - unfold onDidChangeConfiguration.
    destruct (hasConfigurationCapability (server sys)).
    + pose proof (forEach_cache_scoped (documents (server sys))
                    (set_documentSettings ∅ (server sys))) as H.
      destruct (forEach_validatePerlDocument _ _) as [rs st']. simpl in *.
      apply H. intros u p Hu. simpl in Hu. by rewrite lookup_empty in Hu.
    + destruct (settings change) as [|perlnavigator]; [done|].
      pose proof (forEach_cache_scoped (documents (server sys))
                    (set_globalSettings (default defaultSettings perlnavigator)
                       (server sys)) Hinv) as H.
      by destruct (forEach_validatePerlDocument _ _) as [rs st'].
  - by apply (cache_scoped_weaken (server sys) _ [ConsoleLog FileChangeEvent]).
  - destruct (runs sys !! k) as [r|]; [|done].
    destruct (resume r w (server sys)) as [[r' st1]|] eqn:E; [|done]. simpl.
    destruct (resume_settings_frame _ _ _ _ _ E) as (_ & _ & Hm & _).
    destruct (resume_effects_no_request _ _ _ _ _ E) as (es & Heff & _).
    apply (cache_scoped_weaken (server sys) _ es); [by rewrite Hm|done|done].
Qed.

(** X15. At every moment, each promise in the settings cache is the promise
    of a configuration request that the server sent for the very document it
    is cached under, for the section 'perlnavigator': the cache never holds
    one document's settings under another's URI, nor a value that did not
    come from the client.  The property holds of the empty cache and every
    event keeps it. *)
Theorem cache_holds_scoped_requests (evs : list Event) (sys : System) :
  cache_scoped (server sys) → cache_scoped (server (deliver_all evs sys)).
Proof.
  revert sys. induction evs as [|ev evs IH]; intros sys Hinv; simpl; [done|].
  apply IH. by apply deliver_cache_scoped.
Qed.

Lemma getDocumentSettings_dom (resource : string) (st : Server) :
  hasConfigurationCapability st = true →
  dom (documentSettings (getDocumentSettings resource st).2)
    =@{gset string} {[ resource ]} ∪ dom (documentSettings st) ∧
  ∃ es, effects (getDocumentSettings resource st).2 = effects st ++ es ∧
        length (filter is_configuration_request es) + size (documentSettings st)
          = size (documentSettings (getDocumentSettings resource st).2).
Proof.
  intros Hcap.
  destruct (documentSettings st !! resource) as [p|] eqn:Hget.
  - rewrite (getDocumentSettings_cached resource st p Hcap Hget). simpl. split.
    + symmetry. apply subseteq_union_1_L, singleton_subseteq_l, elem_of_dom. eauto.
    + exists []. by rewrite app_nil_r.
  - destruct (getDocumentSettings_request resource st Hcap Hget)
      as (st' & -> & _ & _ & Hm & _ & _ & _ & Heff). simpl.
    rewrite Hm. split; [apply dom_insert_L|].
    eexists. split; [exact Heff|].
    rewrite map_size_insert_None by done. reflexivity.
Qed.

Lemma forEach_dom (all : list TextDocument) (st : Server) :
  hasConfigurationCapability st = true →
  dom (documentSettings (forEach_validatePerlDocument all st).2)
    =@{gset string} list_to_set (uri <$> all) ∪ dom (documentSettings st) ∧
  ∃ es, effects (forEach_validatePerlDocument all st).2 = effects st ++ es ∧
        length (filter is_configuration_request es) + size (documentSettings st)
          = size (documentSettings (forEach_validatePerlDocument all st).2).
Proof.
  revert st. induction all as [|d all IH]; intros st Hcap; simpl.
  - split; [by rewrite (left_id_L ∅ (∪))|]. exists []. by rewrite app_nil_r.
  - unfold validatePerlDocument.
    destruct (getDocumentSettings_dom (uri d) st Hcap) as (Hdom1 & es1 & Heff1 & Hsz1).
    pose proof (getDocumentSettings_frame (uri d) st) as (Hc1 & _).
    destruct (getDocumentSettings (uri d) st) as [p st1]. simpl in *.
    rewrite Hcap in Hc1.
    destruct (IH st1 Hc1) as (Hdom2 & es2 & Heff2 & Hsz2).
    destruct (forEach_validatePerlDocument all st1) as [rs st2]. simpl in *.
    split.
    { rewrite Hdom2, Hdom1, (assoc_L (∪)).
      by rewrite (comm_L (∪) (list_to_set (uri <$> all))). }
    exists (es1 ++ es2). rewrite Heff2, Heff1, <- app_assoc.
    split; [done|]. rewrite filter_app, length_app. lia.
Qed.

(** X16. After a configuration change on a server with scoped requests, the
    settings cache has an entry for exactly the URIs of the open documents,
    whatever it held before, and the handler has sent exactly one
    configuration request per entry: documents that share a URI share one
    request. *)
Theorem configuration_change_requests_open_documents
    (change : DidChangeConfigurationParams) (st : Server) :
  hasConfigurationCapability st = true →
  ∃ rs st',
    onDidChangeConfiguration change st = inr (rs, st') ∧
    dom (documentSettings st') =@{gset string} list_to_set (uri <$> documents st) ∧
    length (filter is_configuration_request (effects_since st st'))
      = size (documentSettings st').
Proof.
  intros Hcap. unfold onDidChangeConfiguration. rewrite Hcap.
  destruct (forEach_dom (documents st) (set_documentSettings ∅ st) Hcap)
    as (Hdom & es & Heff & Hsz).
  simpl in *.
  destruct (forEach_validatePerlDocument (documents st) (set_documentSettings ∅ st))
    as [rs st'].
  simpl in *. exists rs, st'. split; [done|]. split.
  - by rewrite Hdom, dom_empty_L, (right_id_L ∅ (∪)).
  - rewrite (effects_since_app _ _ _ Heff), <- Hsz, map_size_empty. lia.
Qed.

Lemma deliver_scoped_globalSettings (ev : Event) (sys : System) :
  hasConfigurationCapability (server sys) = true →
  globalSettings (server (deliver ev sys)) = globalSettings (server sys).
Proof.
  intros Hcap. destruct ev as [d|d|d|change| |k w]; simpl; try done.
  - unfold onDidOpen, validatePerlDocument.
    pose proof (getDocumentSettings_frame (uri d)
                  (set_documents (documents_set d (documents (server sys)))
                     (server sys))) as (_ & Hg & _).
    by destruct (getDocumentSettings (uri d) _).
  - unfold onDidSave, validatePerlDocument.
    pose proof (getDocumentSettings_frame (uri d) (server sys)) as (_ & Hg & _).
    by destruct (getDocumentSettings (uri d) _).
  - unfold onDidChangeConfiguration. rewrite Hcap.
    pose proof (forEach_frame (documents (server sys))
                  (set_documentSettings ∅ (server sys))) as (_ & Hg & _).
    by destruct (forEach_validatePerlDocument _ _).
  - destruct (runs sys !! k) as [r|]; [|done].
    destruct (resume r w (server sys)) as [[r' st1]|] eqn:E; [|done]. simpl.
    by destruct (resume_settings_frame _ _ _ _ _ E) as (_ & Hg & _).
Qed.

(** X17. On a server with scoped requests the payload of a configuration
    change is never read: any two payloads, [{ settings: null }] included,
    have the same effect, and the handler does not throw.  No sequence of
    events changes the global settings of such a server. *)
Theorem scoped_server_ignores_payload (evs : list Event) (sys : System)
    (change1 change2 : DidChangeConfigurationParams) :
  hasConfigurationCapability (server sys) = true →
  onDidChangeConfiguration change1 (server sys)
    = onDidChangeConfiguration change2 (server sys) ∧
  (∃ rs st', onDidChangeConfiguration change1 (server sys) = inr (rs, st')) ∧
  globalSettings (server (deliver_all evs sys)) = globalSettings (server sys).
Proof.
  intros Hcap. split; [|split].
  - unfold onDidChangeConfiguration. by rewrite Hcap.
  - unfold onDidChangeConfiguration. rewrite Hcap.
    destruct (forEach_validatePerlDocument _ _) as [rs st']. by exists rs, st'.
  - revert sys Hcap. induction evs as [|ev evs IH]; intros sys Hcap; simpl; [done|].
    rewrite IH by (by rewrite deliver_capability).
    by apply deliver_scoped_globalSettings.
Qed.

End Orchestration.

(** * The properties on the sample data *)

(** The scenario of section 8: a.pl opens; the two publishes and the store. *)
Example scenario_first_run :
  let st' := (validation_run file_fsPath reply_defaults a_pl first_run initial).2 in
  publishes (effects st') = [(uri a_pl, [syntax_error]);
                             (uri a_pl, [syntax_error; missing_strict])] ∧
  documentDiags st' !! uri a_pl = Some [missing_strict].
Proof. split; reflexivity. Qed.

(** a.pl saved again, the fast check finds nothing: stage 1 sends the
    retained diagnostics. *)
Example scenario_second_run :
  let st1 := (validation_run file_fsPath reply_defaults a_pl first_run initial).2 in
  let st2 := (validation_run file_fsPath reply_defaults a_pl second_run st1).2 in
  publishes (effects_since st1 st2) = [(uri a_pl, [missing_strict]);
                                       (uri a_pl, [missing_strict])].
Proof. reflexivity. Qed.

(** C4, at [{ settings: null }] on a server without scoped requests and with
    a.pl open: reading [change.settings.perlnavigator] throws, so the handler
    ends before the assignment and before the revalidation.  No run is
    started and the global settings are what they were, not the defaults. *)
Theorem configuration_change_null_settings :
  hasConfigurationCapability unscoped = false ∧
  length (documents unscoped) = 1 ∧
  onDidChangeConfiguration null_settings unscoped
    = inl (TypeError "Cannot read properties of null (reading 'perlnavigator')"%string) ∧
  runs (deliver file_fsPath reply_defaults (DidChangeConfiguration null_settings)
          {| server := unscoped; runs := [] |}) = [] ∧
  globalSettings
    (server (deliver file_fsPath reply_defaults (DidChangeConfiguration null_settings)
               {| server := unscoped; runs := [] |})) = customised ∧
  customised ≠ defaultSettings.
Proof. repeat split; try reflexivity. discriminate. Qed.

Lemma stage1_publish_witness :
  documentDiags retaining !! uri a_pl = Some [missing_strict] ∧
  ∃ st',
    resume file_fsPath reply_defaults (AwaitCompile a_pl 1000)
      (CompileSettled (Fulfilled []) 1050) retaining
      = Some (AwaitCritic a_pl 1000 [], st') ∧
    publishes (effects_since retaining st') = [(uri a_pl, [missing_strict])].
Proof.
  split; [reflexivity|].
  destruct (stage1_publish file_fsPath reply_defaults a_pl 1000 1050 [] retaining)
    as (st' & Hstep & Hsome & _).
  exists st'. split; [exact Hstep|].
  apply (Hsome [missing_strict]). reflexivity.
Defined.

Lemma analyses_started_before_await_witness :
  await_settings reply_defaults (getDocumentSettings (uri a_pl) initial).1
    = Fulfilled defaultSettings ∧
  file_fsPath (uri a_pl) = inr "/a.pl"%string ∧
  ∃ before after,
    effects (validation_run file_fsPath reply_defaults a_pl first_run initial).2
      = before ++ [PerlCompile "/a.pl" None defaultSettings;
                   PerlCritic "/a.pl" None defaultSettings] ++ after ∧
    publishes before = [] ∧
    publishes after = [(uri a_pl, [syntax_error]);
                       (uri a_pl, [syntax_error; missing_strict])].
Proof.
  split; [reflexivity|]. split; [reflexivity|].
  destruct (analyses_started_before_await file_fsPath reply_defaults)
    as (_ & _ & _ & _ & _ & Hrun).
  destruct (Hrun a_pl first_run initial defaultSettings "/a.pl"%string None
              [syntax_error] [missing_strict] eq_refl eq_refl eq_refl eq_refl eq_refl)
    as (before & after & Heff & _ & Hbefore & Hafter).
  exists before, after. split; [exact Heff|]. split; [exact Hbefore|exact Hafter].
Defined.

(** C6, as stated, at perlcompile's promise rejecting while perlcritic
    answers, and at perlcritic's promise rejecting while perlcompile answers:
    the first run publishes nothing, perlcritic's diagnostics included; the
    second publishes stage 1 and no stage 2. *)
Lemma analysis_rejection_aborts_run :
  let lost := validation_run file_fsPath reply_defaults a_pl compile_rejecting_run
                retaining in
  let cut := validation_run file_fsPath reply_defaults a_pl critic_rejecting_run
               retaining in
  compile_result compile_rejecting_run = Rejected spawn_failed ∧
  critic_result compile_rejecting_run = Fulfilled [missing_strict] ∧
  lost.1 = Threw a_pl spawn_failed ∧
  publishes (effects_since retaining lost.2) = [] ∧
  compile_result critic_rejecting_run = Fulfilled [syntax_error] ∧
  critic_result critic_rejecting_run = Rejected spawn_failed ∧
  cut.1 = Threw a_pl spawn_failed ∧
  publishes (effects_since retaining cut.2)
    = [(uri a_pl, [syntax_error; missing_strict])].
Proof. repeat split. Qed.

Lemma publishes_by_analysis_outcome_witness :
  await_settings reply_defaults (getDocumentSettings (uri a_pl) retaining).1
    = Fulfilled defaultSettings ∧
  file_fsPath (uri a_pl) = inr "/a.pl"%string ∧
  workspace_folders second_run = Fulfilled None ∧
  compile_result second_run = Fulfilled [] ∧
  critic_result second_run = Fulfilled [missing_strict] ∧
  ∃ st' payload1,
    validation_run file_fsPath reply_defaults a_pl second_run retaining
      = (Returned a_pl, st') ∧
    publishes (effects_since retaining st')
      = [(uri a_pl, payload1); (uri a_pl, [missing_strict])] ∧
    payload1 = [missing_strict].
Proof.
  do 5 (split; [reflexivity|]).
  destruct (publishes_by_analysis_outcome file_fsPath reply_defaults a_pl second_run
              retaining defaultSettings "/a.pl"%string None eq_refl eq_refl eq_refl)
    as (Hboth & _ & _).
  destruct (Hboth [] [missing_strict] eq_refl eq_refl)
    as (st' & payload1 & Hrun & Hpub & _ & Hretained & _).
  exists st', payload1. split; [exact Hrun|]. split; [exact Hpub|].
  apply (Hretained [missing_strict]). reflexivity.
Defined.

Lemma settings_failure_propagates_witness :
  hasConfigurationCapability scoped = true ∧
  documentSettings scoped !! uri a_pl = None ∧
  ∃ st',
    validatePerlDocument a_pl scoped = (AwaitSettings a_pl (ConfigurationRequest 0), st') ∧
    resume file_fsPath reply_failure (AwaitSettings a_pl (ConfigurationRequest 0))
      (SettingsSettled 7) st'
      = Some (Threw a_pl (ResponseError (-32603) "Internal error"), st').
Proof.
  split; [reflexivity|]. split; [reflexivity|].
  destruct (settings_failure_propagates file_fsPath reply_failure a_pl scoped
              (ResponseError (-32603) "Internal error") 7)
    as (st' & _ & _ & _ & _ & Hcall & Hthrow); try reflexivity.
  exists st'. split; [exact Hcall|exact Hthrow].
Defined.

Lemma consecutive_runs_same_stage2_witness :
  let st1 := (validation_run file_fsPath reply_defaults a_pl first_run initial).2 in
  let st2 := (validation_run file_fsPath reply_defaults a_pl repeat_run st1).2 in
  compile_result first_run = compile_result repeat_run ∧
  critic_result first_run = critic_result repeat_run ∧
  file_fsPath (uri a_pl) = inr "/a.pl"%string ∧
  last (publishes (effects_since initial st1))
    = Some (uri a_pl, [syntax_error; missing_strict]) ∧
  last (publishes (effects_since st1 st2))
    = Some (uri a_pl, [syntax_error; missing_strict]).
Proof.
  split; [reflexivity|]. split; [reflexivity|]. split; [reflexivity|].
  destruct (consecutive_runs_same_stage2 file_fsPath reply_defaults a_pl
              first_run repeat_run initial defaultSettings "/a.pl"%string None (Some [])
              [syntax_error] [missing_strict]
              eq_refl eq_refl eq_refl eq_refl eq_refl eq_refl eq_refl eq_refl)
    as (_ & _ & H1 & H2 & _).
  split; [exact H1|exact H2].
Defined.

Lemma failed_request_stays_cached_witness :
  let sys := {| server := scoped; runs := [] |} in
  let evs := [DidSave a_pl; DidOpen b_pl; Settle 0 (SettingsSettled 5);
              DidClose b_pl; DidChangeWatchedFiles] in
  let sys1 := {| server := (getDocumentSettings (uri a_pl) scoped).2; runs := [] |} in
  let sys2 := deliver_all file_fsPath reply_failure evs sys1 in
  hasConfigurationCapability scoped = true ∧
  documentSettings scoped !! uri a_pl = None ∧
  forallb (λ ev, negb (removes_settings (uri a_pl) ev)) evs = true ∧
  getDocumentSettings (uri a_pl) (server sys2) = (ConfigurationRequest 0, server sys2) ∧
  await_settings reply_failure (ConfigurationRequest 0)
    = Rejected (ResponseError (-32603) "Internal error") ∧
  documentSettings (server (deliver file_fsPath reply_failure (DidClose a_pl) sys2))
    !! uri a_pl = None.
Proof.
  intros sys evs sys1 sys2.
  split; [reflexivity|]. split; [reflexivity|]. split; [reflexivity|].
  destruct (failed_request_stays_cached file_fsPath reply_failure (uri a_pl) sys
              (ResponseError (-32603) "Internal error"))
    as (_ & Hrej & _ & Hlater); try reflexivity.
  destruct (Hlater evs) as (Hsame & _ & _ & _ & Hclose); [reflexivity|].
  split; [exact Hsame|]. split; [exact Hrej|].
  apply (Hclose a_pl). reflexivity.
Defined.



(** * The further properties on the sample data *)

Lemma initialization_follows_client_witness :
  effects (onInitialized (onInitialize bare_client initial).2) = [] ∧
  effects (onInitialized (onInitialize full_client initial).2)
    = [ClientRegisterDidChangeConfiguration; OnDidChangeWorkspaceFolders].
Proof.
  destruct (initialization_follows_client bare_client initial)
    as (_ & _ & _ & _ & Hbare & _).
  destruct (initialization_follows_client full_client initial) as (Hfull & _).
  split; [apply Hbare; reflexivity|exact Hfull].
Defined.

Lemma settings_requested_once_witness :
  hasConfigurationCapability scoped = true ∧
  documentSettings scoped !! uri a_pl = None ∧
  effects_since scoped
    (getDocumentSettings (uri a_pl) (getDocumentSettings (uri a_pl) scoped).2).2
    = [GetConfiguration 0 (uri a_pl) "perlnavigator"].
Proof.
  split; [reflexivity|]. split; [reflexivity|].
  destruct (settings_requested_once (uri a_pl) scoped) as (_ & Hone & _).
  apply Hone; reflexivity.
Defined.

Lemma failure_before_dispatch_starts_nothing_witness :
  let undecoded := validation_run file_fsPath reply_defaults percent_pl first_run
                     retaining in
  let refused := validation_run file_fsPath reply_defaults a_pl folders_rejecting_run
                   retaining in
  file_fsPath (uri percent_pl) = inl (URIError "URI malformed") ∧
  undecoded.1 = Threw percent_pl (URIError "URI malformed") ∧
  effects_since retaining undecoded.2 = [] ∧
  filter is_analysis_start (effects_since retaining undecoded.2) = [] ∧
  workspace_folders folders_rejecting_run
    = Rejected (ResponseError (-32601) "Method not found") ∧
  refused.1 = Threw a_pl (ResponseError (-32601) "Method not found") ∧
  filter is_analysis_start (effects_since retaining refused.2) = [] ∧
  publishes (effects_since retaining refused.2) = [].
Proof.
  intros undecoded refused.
  destruct (failure_before_dispatch_starts_nothing file_fsPath reply_defaults
              percent_pl first_run retaining (URIError "URI malformed"))
    as (Hrun1 & Hstart1 & _).
  { right. left. exists defaultSettings. split; reflexivity. }
  destruct (failure_before_dispatch_starts_nothing file_fsPath reply_defaults
              a_pl folders_rejecting_run retaining
              (ResponseError (-32601) "Method not found"))
    as (Hrun2 & Hstart2 & Hpub2 & _).
  { right. right. exists defaultSettings, "/a.pl"%string. repeat split. }
  split; [reflexivity|]. split; [exact Hrun1|]. split; [reflexivity|].
  split; [exact Hstart1|]. split; [reflexivity|]. split; [exact Hrun2|].
  split; [exact Hstart2|exact Hpub2].
Defined.

Lemma compile_rejection_publishes_nothing_witness :
  let rs := validation_run file_fsPath reply_defaults a_pl compile_rejecting_run
              retaining in
  compile_result compile_rejecting_run = Rejected spawn_failed ∧
  rs.1 = Threw a_pl spawn_failed ∧
  publishes (effects_since retaining rs.2) = [] ∧
  documentDiags rs.2 !! uri a_pl = Some [missing_strict].
Proof.
  split; [reflexivity|].
  destruct (compile_rejection_publishes_nothing file_fsPath reply_defaults a_pl
              compile_rejecting_run retaining defaultSettings "/a.pl"%string None
              spawn_failed eq_refl eq_refl eq_refl eq_refl)
    as (Hrun & _ & _ & Hpub & Hd).
  split; [exact Hrun|]. split; [exact Hpub|]. rewrite Hd. reflexivity.
Defined.

Lemma critic_rejection_keeps_retained_witness :
  let rs := validation_run file_fsPath reply_defaults a_pl critic_rejecting_run
              retaining in
  critic_result critic_rejecting_run = Rejected spawn_failed ∧
  documentDiags retaining !! uri a_pl = Some [missing_strict] ∧
  rs.1 = Threw a_pl spawn_failed ∧
  publishes (effects_since retaining rs.2)
    = [(uri a_pl, [syntax_error; missing_strict])].
Proof.
  split; [reflexivity|]. split; [reflexivity|].
  destruct (critic_rejection_keeps_retained file_fsPath reply_defaults a_pl
              critic_rejecting_run retaining defaultSettings "/a.pl"%string None
              [syntax_error] spawn_failed eq_refl eq_refl eq_refl eq_refl eq_refl)
    as (Hrun & _ & Hsome & _).
  split; [exact Hrun|]. apply (Hsome [missing_strict]). reflexivity.
Defined.


Lemma close_touches_one_document_witness :
  uri a_pl ≠ uri b_pl ∧
  documentDiags (onDidClose b_pl retaining) !! uri a_pl = Some [missing_strict].
Proof.
  split; [discriminate|].
  destruct (close_touches_one_document b_pl retaining) as (Hother & _).
  destruct (Hother (uri a_pl)) as (_ & Hd); [discriminate|].
  rewrite Hd. reflexivity.
Defined.

Lemma store_entry_written_by_close_and_critic_witness :
  let sys := {| server := retaining; runs := [AwaitCritic b_pl 0 [syntax_error]] |} in
  let ev := Settle 0 (CriticSettled (Fulfilled []) 400) in
  writes_diags (uri a_pl) sys ev = false ∧
  writes_diags (uri b_pl) sys ev = true ∧
  documentDiags (server (deliver file_fsPath reply_defaults ev sys)) !! uri a_pl
    = Some [missing_strict].
Proof.
  intros sys ev. split; [reflexivity|]. split; [reflexivity|].
  rewrite (store_entry_written_by_close_and_critic file_fsPath reply_defaults
             (uri a_pl) ev sys); reflexivity.
Defined.


Lemma unscoped_server_never_requests_witness :
  let sys := {| server := initial; runs := [] |} in
  let evs := [DidOpen a_pl; Settle 0 (SettingsSettled 0);
              DidChangeConfiguration push_customised; DidSave a_pl;
              DidOpen b_pl; DidClose a_pl] in
  hasConfigurationCapability initial = false ∧
  length (runs (deliver_all file_fsPath reply_defaults evs sys)) = 4 ∧
  filter is_configuration_request
    (effects_since initial (server (deliver_all file_fsPath reply_defaults evs sys)))
    = [].
Proof.
  intros sys evs. split; [reflexivity|]. split; [reflexivity|].
  destruct (unscoped_server_never_requests file_fsPath reply_defaults evs sys)
    as (Hnone & _); [reflexivity|exact Hnone].
Defined.

Lemma run_in_flight_keeps_settings_witness :
  let waiting := wake file_fsPath reply_defaults (SettingsSettled 0)
                   (validatePerlDocument a_pl initial) in
  hasConfigurationCapability initial = false ∧
  file_fsPath (uri a_pl) = inr "/a.pl"%string ∧
  ∃ rs st2,
    onDidChangeConfiguration push_customised waiting.2 = inr (rs, st2) ∧
    globalSettings st2 = customised ∧
    effects_since st2
      (wake file_fsPath reply_defaults (WorkspaceFoldersSettled (Fulfilled None))
         (waiting.1, st2)).2
      = [PerlCompile "/a.pl" None defaultSettings;
         PerlCritic "/a.pl" None defaultSettings].
Proof.
  intros waiting. split; [reflexivity|]. split; [reflexivity|].
  destruct (run_in_flight_keeps_settings file_fsPath reply_defaults a_pl
              (Some customised) 0 "/a.pl"%string None initial eq_refl eq_refl)
    as (rs & st2 & _ & Hchange & Hglobal & _ & Heff).
  exists rs, st2. split; [exact Hchange|]. split; [exact Hglobal|exact Heff].
Defined.

Lemma cache_holds_scoped_requests_witness :
  let sys := {| server := scoped; runs := [] |} in
  let evs := [DidOpen a_pl; DidOpen b_pl; DidClose a_pl;
              DidChangeConfiguration push_customised; DidSave a_pl] in
  documentSettings scoped = ∅ ∧
  size (documentSettings (server (deliver_all file_fsPath reply_defaults evs sys))) = 2 ∧
  cache_scoped (server (deliver_all file_fsPath reply_defaults evs sys)).
Proof.
  intros sys evs. split; [reflexivity|]. split; [reflexivity|].
  apply (cache_holds_scoped_requests file_fsPath reply_defaults evs sys).
  intros u p Hu. simpl in Hu. by rewrite lookup_empty in Hu.
Defined.

Lemma configuration_change_requests_open_documents_witness :
  hasConfigurationCapability scoped_two_open = true ∧
  ∃ rs st',
    onDidChangeConfiguration null_settings scoped_two_open = inr (rs, st') ∧
    dom (documentSettings st') =@{gset string} list_to_set [uri a_pl; uri b_pl] ∧
    length (filter is_configuration_request (effects_since scoped_two_open st'))
      = size (documentSettings st').
Proof.
  split; [reflexivity|].
  destruct (configuration_change_requests_open_documents null_settings scoped_two_open)
    as (rs & st' & Hchange & Hdom & Hlen); [reflexivity|].
  exists rs, st'. split; [exact Hchange|]. split; [exact Hdom|exact Hlen].
Defined.

Lemma scoped_server_ignores_payload_witness :
  let sys := {| server := scoped_two_open; runs := [] |} in
  hasConfigurationCapability scoped_two_open = true ∧
  onDidChangeConfiguration null_settings scoped_two_open
    = onDidChangeConfiguration push_customised scoped_two_open ∧
  globalSettings
    (server (deliver_all file_fsPath reply_defaults
               [DidChangeConfiguration push_customised; DidSave a_pl] sys))
    = defaultSettings.
Proof.
  intros sys. split; [reflexivity|].
  destruct (scoped_server_ignores_payload file_fsPath reply_defaults
              [DidChangeConfiguration push_customised; DidSave a_pl] sys
              null_settings push_customised)
    as (Hsame & _ & Hglobal); [reflexivity|].
  split; [exact Hsame|exact Hglobal].
Defined.
